(** * The go/types differential oracle of go-fuzz (examples/gotypes/main.go)

    The oracle [Fuzz] feeds one candidate input to the reference front end
    (go/parser, go/types, go/ssa) and to the gccgo front end [go1], compares
    the two answers (the third arm, gc, is an alias of the first), filters
    the comparison through a list of already filed divergences and crash
    signatures, and either returns 0 or 1 or panics.

    The file embeds that function statement by statement.  Go's [[]byte] is
    [list byte]; Go's [string] is [string]; Go's [error] is [option string]
    ([None] is [nil], [Some m] an error whose [Error()] text is [m]); Go's
    [int] is [Z].  The collaborators the source only calls (parser, checker,
    SSA builder, the [go1] process, the formatter) are the fields of a record
    the development is parametrised by.

    A run is a pair: the trace of the calls made and of the lines printed,
    and the way the function ended (a returned value or a panic).  The
    collaborators are taken to answer: a process that never ends and a fault
    inside a library are outside the model.  The function [gc] of the source
    is never called (line 48 is a comment) and is not embedded. *)

From Stdlib Require Import List ZArith Bool.
From Stdlib.Strings Require Import String Ascii Byte.
Import ListNotations.

Local Open Scope string_scope.
Local Open Scope list_scope.
Local Open Scope bool_scope.

Set Implicit Arguments.

(** ** Bytes and strings *)

(** [[]byte("...")]: the bytes of a string constant. *)
Definition bytes (s : string) : list byte := list_byte_of_string s.

(** The control characters the Go source writes as escapes. *)
Definition TAB : byte := x09.
Definition LF : byte := x0a.
Definition VT : byte := x0b.
Definition FF : byte := x0c.
Definition CR : byte := x0d.
Definition SP : byte := x20.

(** A string constant that starts with the escape [\n]. *)
Definition nl (s : string) : string := String "010"%char s.

(** [bytes.HasPrefix]. *)
Fixpoint HasPrefix (s prefix : list byte) {struct prefix} : bool :=
  match prefix, s with
  | [], _ => true
  | _ :: _, [] => false
  | p :: prefix', c :: s' => Byte.eqb c p && HasPrefix s' prefix'
  end.

(** [bytes.Contains]: [sub] occurs somewhere within [b]. *)
Fixpoint bytes_Contains (b sub : list byte) : bool :=
  HasPrefix b sub ||
  match b with
  | [] => false
  | _ :: b' => bytes_Contains b' sub
  end.

(** [strings.Contains]; a Go string is its bytes. *)
Definition strings_Contains (s substr : string) : bool :=
  bytes_Contains (bytes s) (bytes substr).

(** [bytes.Replace(s, old, new, n)] for a non-empty [old]: the first [n]
    non-overlapping occurrences of [old], scanning from the left, become
    [new]; a negative [n] puts no limit.  [skip] counts the bytes of an
    occurrence that were already consumed.  (An empty [old] makes Go insert
    [new] between UTF-8 sequences; the oracle never does that and the model
    does not cover it.) *)
Fixpoint Replace_from (skip : nat) (n : option nat) (s old new : list byte)
  : list byte :=
  match s with
  | [] => []
  | c :: rest =>
      match skip with
      | S k => Replace_from k n rest old new
      | O =>
          match n with
          | Some O => c :: Replace_from O n rest old new
          | _ =>
              if HasPrefix s old
              then new ++ Replace_from (List.length old - 1)
                            (option_map Nat.pred n) rest old new
              else c :: Replace_from O n rest old new
          end
      end
  end.

Definition bytes_Replace (s old new : list byte) (n : Z) : list byte :=
  Replace_from O (if (n <? 0)%Z then None else Some (Z.to_nat n)) s old new.

(** ** Regular expressions

    The patterns of the source use literals, character classes, [.],
    grouping, alternation and the repetitions [*], [+], [?] and [{3,}].
    They are kept as syntax trees over byte classes and matched with
    derivatives.  Every literal and class member of the patterns is ASCII, and
    an ASCII byte is a rune of its own in any byte sequence, so matching byte
    by byte agrees with Go's rune by rune matching ([.] is any byte but the
    line feed). *)

Inductive regexp : Type :=
| Void
| Eps
| Class (p : byte -> bool)
| Cat (r1 r2 : regexp)
| Alt (r1 r2 : regexp)
| Star (r : regexp).

Fixpoint nullable (r : regexp) : bool :=
  match r with
  | Void => false
  | Eps => true
  | Class _ => false
  | Cat r1 r2 => nullable r1 && nullable r2
  | Alt r1 r2 => nullable r1 || nullable r2
  | Star _ => true
  end.

Fixpoint deriv (c : byte) (r : regexp) : regexp :=
  match r with
  | Void => Void
  | Eps => Void
  | Class p => if p c then Eps else Void
  | Cat r1 r2 =>
      if nullable r1
      then Alt (Cat (deriv c r1) r2) (deriv c r2)
      else Cat (deriv c r1) r2
  | Alt r1 r2 => Alt (deriv c r1) (deriv c r2)
  | Star r1 => Cat (deriv c r1) (Star r1)
  end.

(** Some prefix of [s] is a word of [r]. *)
Fixpoint match_prefix (r : regexp) (s : list byte) : bool :=
  nullable r ||
  match s with
  | [] => false
  | c :: s' => match_prefix (deriv c r) s'
  end.

(** [Regexp.Match]: the byte slice contains a match of the pattern, at
    any position. *)
Fixpoint Match (r : regexp) (b : list byte) : bool :=
  match_prefix r b ||
  match b with
  | [] => false
  | _ :: b' => Match r b'
  end.

(** [Regexp.MatchString]. *)
Definition MatchString (r : regexp) (s : string) : bool := Match r (bytes s).

(** The words of a pattern, as a relation: the reading the matcher is
    checked against. *)
Inductive lang : regexp -> list byte -> Prop :=
| lang_eps : lang Eps []
| lang_class p c : p c = true -> lang (Class p) [c]
| lang_cat r1 r2 w1 w2 : lang r1 w1 -> lang r2 w2 -> lang (Cat r1 r2) (w1 ++ w2)
| lang_alt_l r1 r2 w : lang r1 w -> lang (Alt r1 r2) w
| lang_alt_r r1 r2 w : lang r2 w -> lang (Alt r1 r2) w
| lang_star_nil r : lang (Star r) []
| lang_star_cons r w1 w2 :
    lang r w1 -> lang (Star r) w2 -> lang (Star r) (w1 ++ w2).

(** Pattern combinators, one per construct of the source's patterns. *)

Definition byte_in (cs : list byte) (c : byte) : bool :=
  existsb (Byte.eqb c) cs.

(** One byte of a set, [[...]]. *)
Definition set (cs : list byte) : regexp := Class (byte_in cs).

(** One literal byte. *)
Definition chr (c : byte) : regexp := Class (Byte.eqb c).

(** [[0-9]]. *)
Definition digit : regexp :=
  Class (fun c => (48 <=? Byte.to_N c)%N && (Byte.to_N c <=? 57)%N).

(** [.]: any byte but the line feed. *)
Definition dot : regexp := Class (fun c => negb (Byte.eqb c LF)).

(** A literal byte sequence. *)
Fixpoint lit_bytes (cs : list byte) : regexp :=
  match cs with
  | [] => Eps
  | c :: cs' => Cat (chr c) (lit_bytes cs')
  end.

Definition lit (s : string) : regexp := lit_bytes (bytes s).

(** [r+], [r?] and [r{n,}]. *)
Definition plus (r : regexp) : regexp := Cat r (Star r).
Definition opt (r : regexp) : regexp := Alt r Eps.
Fixpoint at_least (n : nat) (r : regexp) : regexp :=
  match n with
  | O => Star r
  | S n' => Cat r (at_least n' r)
  end.

(** A sequence of patterns. *)
Fixpoint seq (rs : list regexp) : regexp :=
  match rs with
  | [] => Eps
  | [r] => r
  | r :: rs' => Cat r (seq rs')
  end.

(** ** The pattern library (main.go, lines 21-36)

    Each definition is the tree of the pattern compiled in the source; the
    alternation of [bigNum] is the outermost operator, as
    [regexp.MustCompile] parses it. *)

(** A dot and digits, or digits, an exponent mark, optional signs and three
    or more digits. *)
Definition bigNum : regexp :=
  Alt (seq [lit "."; Star digit])
      (seq [plus digit; set (bytes "eE"); opt (lit "-"); opt (lit "+");
            at_least 3 digit]).

(** The white space class of the two [formatBug] patterns. *)
Definition space6 : regexp := set [SP; TAB; LF; CR; FF; VT].

Definition formatBug1 : regexp := seq [lit "*/"; Star space6; lit ";"].
Definition formatBug2 : regexp := seq [lit ";"; Star space6; lit "/*"].

Definition issue11528 : regexp :=
  seq [lit "/*"; plus (Cat (Star dot) (chr LF)); Star dot; lit "*/"].

Definition issue11533 : regexp :=
  seq [set ([SP; CR; TAB; LF] ++ bytes "=+-*^/(,"); lit "0"; plus digit;
       set (bytes "ieE")].

Definition issue11531 : regexp :=
  seq [lit ","; Star (set [SP; TAB; CR; LF]); lit ","].

Definition fpRounding : regexp :=
  seq [lit " (untyped float constant "; Star dot; lit ") truncated to "].

Definition gcCrash : regexp :=
  seq [chr LF; lit "/tmp/fuzz.gc"; plus digit; lit ":"; plus digit;
       lit ": internal compiler error: "].

Definition gccgoCrash : regexp :=
  seq [chr LF; lit "go1: internal compiler error:"].

Definition asanCrash : regexp :=
  seq [chr LF; lit "=="; plus digit; lit "==ERROR: AddressSanitizer: "].

(** ** Errors, events and the statement monad *)

(** Go's [error]: [None] is [nil]. *)
Definition error : Type := option string.

Definition isNil (e : error) : bool :=
  match e with None => true | Some _ => false end.

Definition notNil (e : error) : bool := negb (isNil e).

(** [e.Error()].  The source calls it only to the right of an [e != nil]
    test; the text given to [nil] is never looked at. *)
Definition Error (e : error) : string :=
  match e with Some m => m | None => "" end.

(** The verb [%v] of [fmt] on an error. *)
Definition fmt_v (e : error) : string :=
  match e with Some m => m | None => "<nil>" end.

(** What a run does that the outside can see: the calls to the
    collaborators, in order, and the lines printed. *)
Inductive event : Type :=
| ParseFile (src : list byte)
| TypesCheck
| BuildAll
| WriteTo
| Exec (name : string) (stdin : list byte)
| FormatSource (src : list byte)
| Print (out : string).

(** How a statement ends: control goes on with a value, the enclosing
    function returns, or the goroutine panics. *)
Inductive flow (R A : Type) : Type :=
| Next (a : A)
| Return (r : R)
| Panic (msg : string).

Arguments Next {R A} a.
Arguments Return {R A} r.
Arguments Panic {R A} msg.

(** How a call ends. *)
Inductive outcome (R : Type) : Type :=
| Returned (r : R)
| Panicked (msg : string).

Arguments Returned {R} r.
Arguments Panicked {R} msg.

Definition stmt (R A : Type) : Type := (list event * flow R A)%type.
Definition call (R : Type) : Type := (list event * outcome R)%type.

Definition bind {R A B} (s : stmt R A) (k : A -> stmt R B) : stmt R B :=
  match s with
  | (t, Next a) => let (t', f) := k a in (t ++ t', f)
  | (t, Return r) => (t, Return r)
  | (t, Panic m) => (t, Panic m)
  end.

Definition skip {R} : stmt R unit := ([], Next tt).
Definition RETURN {R A} (r : R) : stmt R A := ([], Return r).
Definition PANIC {R A} (msg : string) : stmt R A := ([], Panic msg).

(** An [if] without [else]. *)
Definition when {R} (c : bool) (s : stmt R unit) : stmt R unit :=
  if c then s else skip.

(** A call to a collaborator: the event is recorded, the answer goes on. *)
Definition ext {R A} (e : event) (a : A) : stmt R A := ([e], Next a).

Definition Printf {R} (out : string) : stmt R unit := ext (Print out) tt.

(** A function body runs to a [return] or a panic. *)
Definition func {R} (body : stmt R Empty_set) : call R :=
  match body with
  | (_, Next a) => match a with end
  | (t, Return r) => (t, Returned r)
  | (t, Panic m) => (t, Panicked m)
  end.

(** A call as a statement of the caller: a panic goes through. *)
Definition do {R A} (c : call A) : stmt R A :=
  match c with
  | (t, Returned a) => (t, Next a)
  | (t, Panicked m) => (t, Panic m)
  end.

(** [for _, x := range xs { body }]. *)
Fixpoint for_range {R A} (xs : list A) (body : A -> stmt R unit)
  : stmt R unit :=
  match xs with
  | [] => skip
  | x :: xs' => bind (body x) (fun _ => for_range xs' body)
  end.

Definition trace {R} (c : call R) : list event := fst c.
Definition result {R} (c : call R) : outcome R := snd c.

Declare Scope go_scope.
Delimit Scope go_scope with go.

Notation "x <- s ;; k" := (bind s (fun x => k))
  (at level 100, s at level 99, k at level 200, right associativity)
  : go_scope.
Notation "' p <- s ;; k" := (bind s (fun x => let 'p := x in k))
  (at level 100, p pattern, s at level 99, k at level 200,
   right associativity) : go_scope.
Notation "s ;; k" := (bind s (fun _ => k))
  (at level 100, k at level 200, right associativity) : go_scope.
Notation "'IF' c 'THEN' s" := (when c s)
  (at level 99, c at level 98, s at level 99) : go_scope.

Local Open Scope go_scope.

(** ** The collaborators

    The libraries and the process the source calls, as the functions the
    oracle sees: what [parser.ParseFile] gives for the bytes, what
    [conf.Check] gives for the parsed file, the packages of the SSA program
    and what [WriteTo] gives for each, the combined output and the exit
    error of [go1] reading the bytes on its standard input, and what
    [format.Source] gives. *)
Record toolchain : Type := {
  ast_File : Type;
  parser_ParseFile : list byte -> ast_File * error;
  types_Check : ast_File -> error;
  ssa_Package : Type;
  ssa_AllPackages : list byte -> list ssa_Package;
  ssa_WriteTo : ssa_Package -> error;
  exec_go1 : list byte -> string * error;
  format_Source : list byte -> list byte * error;
  fmt_q : list byte -> string
}.

(** The verdict of one arm, in the words of the specification. *)
Inductive verdict : Type := Valid | Invalid | Crashed.

Section Oracle.

Variable tc : toolchain.

(** [gotypes] (lines 312-338): parse, check, build the SSA form and write
    every package out; only the writing panics. *)
Definition gotypes (data : list byte) : call error :=
  func (
    '(f, err) <- ext (ParseFile data) (parser_ParseFile tc data) ;;
    IF notNil err THEN RETURN err ;;
    err <- ext TypesCheck (types_Check tc f) ;;
    IF notNil err THEN RETURN err ;;
    ext BuildAll tt ;;
    for_range (ssa_AllPackages tc data) (fun pkg =>
      err <- ext WriteTo (ssa_WriteTo tc pkg) ;;
      IF notNil err THEN PANIC (Error err)) ;;
    RETURN err).

(** [gccgo] (lines 359-368): run [go1] on the bytes; a failed run becomes
    the error [fmt.Errorf("%s\n%s", out, err)]. *)
Definition gccgo (data : list byte) : call error :=
  func (
    '(out, err) <- ext (Exec "go1" data) (exec_go1 tc data) ;;
    IF notNil err THEN RETURN (Some (out ++ nl (Error err))%string) ;;
    RETURN None).

(** [Fuzz] (lines 38-310), statement by statement.  [strings.Contains]
    and the matchers have no effect, so only the calls and the prints are
    events. *)
Definition Fuzz (data : list byte) : call Z :=
  func (
    IF Match bigNum data THEN RETURN 0%Z ;;
    IF Match issue11531 data THEN RETURN 0%Z ;;
    goErr <- do (gotypes data) ;;
    let gcErr := goErr in
    gccgoErr <- do (gccgo data) ;;
    IF isNil goErr && notNil gcErr && strings_Contains (Error gcErr) "line number out of range" THEN RETURN 0%Z ;;
    IF isNil goErr && notNil gcErr && strings_Contains (Error gcErr) "stupid shift:" THEN RETURN 0%Z ;;
    IF isNil gcErr && notNil goErr && strings_Contains (Error goErr) "untyped float constant" THEN RETURN 0%Z ;;
    IF isNil goErr && notNil gcErr && strings_Contains (Error gcErr) "overflow in int -> string" THEN RETURN 0%Z ;;
    IF isNil gcErr && notNil goErr && strings_Contains (Error goErr) "illegal character U+" THEN RETURN 0%Z ;;
    IF isNil goErr && notNil gcErr && strings_Contains (Error gcErr) "larger than address space" THEN RETURN 0%Z ;;
    IF isNil goErr && notNil gcErr && strings_Contains (Error gcErr) "non-canonical import path" THEN RETURN 0%Z ;;

    IF isNil gccgoErr && notNil goErr THEN (
      IF strings_Contains (Error goErr) "invalid operation: stupid shift count" THEN RETURN 0%Z ;;
      IF (bytes_Contains data (bytes "//line") || bytes_Contains data (bytes "/*")) &&
         (strings_Contains (Error goErr) "illegal UTF-8 encoding" ||
          strings_Contains (Error goErr) "illegal character NUL") THEN RETURN 0%Z ;;
      IF strings_Contains (Error goErr) "invalid operation: operator ^ not defined for" THEN RETURN 0%Z ;;
      IF MatchString fpRounding (Error goErr) THEN RETURN 0%Z ;;
      IF bytes_Contains data (bytes "_") &&
         (strings_Contains (Error goErr) ": undeclared name: " ||
          strings_Contains (Error goErr) "invalid array length") THEN RETURN 0%Z ;;
      IF strings_Contains (Error goErr) "not enough arguments for complex" THEN RETURN 0%Z ;;
      IF strings_Contains (Error goErr) "operator | not defined for" THEN RETURN 0%Z ;;
      IF strings_Contains (Error goErr) "nil (untyped nil value) is not a type" THEN RETURN 0%Z ;;
      IF strings_Contains (Error goErr) "(built-in) must be called" THEN RETURN 0%Z ;;
      IF strings_Contains (Error goErr) "redeclared in this block" THEN RETURN 0%Z ;;
      IF strings_Contains (Error goErr) "illegal byte order mark" THEN RETURN 0%Z ;;
      IF strings_Contains (Error goErr) "unknown escape sequence" THEN RETURN 0%Z) ;;

    IF isNil goErr && notNil gccgoErr THEN (
      IF strings_Contains (Error gccgoErr) "error: string index out of bounds" THEN RETURN 0%Z ;;
      IF strings_Contains (Error gccgoErr) "error: integer constant overflow" THEN RETURN 0%Z ;;
      IF Match issue11533 data THEN RETURN 0%Z ;;
      IF bytes_Contains data (bytes "0i") &&
         (strings_Contains (Error gccgoErr) "incompatible types in binary expression" ||
          strings_Contains (Error gccgoErr) "initialization expression has wrong type") THEN RETURN 0%Z ;;
      IF strings_Contains (Error gccgoErr) "invalid character 0x37f in input file" THEN RETURN 0%Z ;;
      IF strings_Contains (Error gccgoErr) "error: incompatible types in binary expression" THEN RETURN 0%Z) ;;

    IF isNil goErr && notNil gccgoErr && strings_Contains (Error gccgoErr) ": error: import file " THEN RETURN 0%Z ;;

    IF (isNil goErr && notNil gccgoErr || notNil goErr && isNil gccgoErr) && Match issue11528 data THEN RETURN 0%Z ;;

    IF notNil gcErr && MatchString gcCrash (Error gcErr) THEN (
      IF strings_Contains (Error gcErr) "internal compiler error: out of fixed registers" THEN RETURN 0%Z ;;
      IF strings_Contains (Error gcErr) "internal compiler error: naddr: bad HMUL" THEN RETURN 0%Z ;;
      IF strings_Contains (Error gcErr) "internal compiler error: treecopy Name" THEN RETURN 0%Z ;;
      Printf ("gc result: " ++ fmt_v gcErr ++ nl "") ;;
      PANIC "gc compiler crashed") ;;

    IF notNil gccgoErr && MatchString gccgoCrash (Error gccgoErr) THEN (
      IF strings_Contains (Error gccgoErr) "warning: no arguments for builtin function ‘print’" THEN RETURN 0%Z ;;
      IF strings_Contains (Error gccgoErr) "error: constant refers to itself" THEN RETURN 0%Z ;;
      IF strings_Contains (Error gccgoErr) "go1: internal compiler error: in set_type, at go/gofrontend/expressions.cc" THEN RETURN 0%Z ;;
      IF strings_Contains (Error gccgoErr) "go1: internal compiler error: in global_variable_set_init, at go/go-gcc.cc" THEN RETURN 0%Z ;;
      IF strings_Contains (Error gccgoErr) "go1: internal compiler error: in wide_int_to_tree, at tree.c" THEN RETURN 0%Z ;;
      IF strings_Contains (Error gccgoErr) "go1: internal compiler error: in record_var_depends_on, at go/gofrontend/gogo.h" THEN RETURN 0%Z ;;
      IF strings_Contains (Error gccgoErr) "go1: internal compiler error: in Builtin_call_expression, at go/gofrontend/expressions.cc" THEN RETURN 0%Z ;;
      IF strings_Contains (Error gccgoErr) "go1: internal compiler error: in check_bounds, at go/gofrontend/expressions.cc" THEN RETURN 0%Z ;;
      IF strings_Contains (Error gccgoErr) "go1: internal compiler error: in do_determine_type, at go/gofrontend/expressions.h" THEN RETURN 0%Z ;;
      IF strings_Contains (Error gccgoErr) "go1: internal compiler error: in backend_numeric_constant_expression, at go/gofrontend/expressions.cc" THEN RETURN 0%Z ;;
      IF strings_Contains (Error gccgoErr) "go1: internal compiler error: in declare_function, at go/gofrontend/gogo.cc" THEN RETURN 0%Z ;;
      IF strings_Contains (Error gccgoErr) "gcc/go/gofrontend/expressions.cc:5756" THEN RETURN 0%Z ;;
      IF strings_Contains (Error gccgoErr) "Send_statement::do_flatten" THEN RETURN 0%Z ;;
      IF strings_Contains (Error gccgoErr) "internal compiler error: in do_get_backend, at go/gofrontend/expressions.cc" THEN RETURN 0%Z ;;
      IF strings_Contains (Error gccgoErr) "go1: internal compiler error: in type_size, at go/go-gcc.cc" THEN RETURN 0%Z ;;
      IF strings_Contains (Error gccgoErr) "go1: internal compiler error: in create_tmp_var, at gimple-expr.c" THEN RETURN 0%Z ;;
      IF strings_Contains (Error gccgoErr) "go1: internal compiler error: in start_function, at go/gofrontend/gogo.cc" THEN RETURN 0%Z ;;
      IF strings_Contains (Error gccgoErr) "go1: internal compiler error: in methods, at go/gofrontend/types.cc" THEN RETURN 0%Z ;;
      Printf ("gccgo result: " ++ fmt_v gccgoErr ++ nl "") ;;
      PANIC "gccgo compiler crashed") ;;

    IF notNil gccgoErr && MatchString asanCrash (Error gccgoErr) THEN (
      IF strings_Contains (Error gccgoErr) " in Lex::skip_cpp_comment() ../../gcc/go/gofrontend/lex.cc" THEN RETURN 0%Z ;;
      Printf ("gccgo result: " ++ fmt_v gccgoErr ++ nl "") ;;
      PANIC "gccgo compiler crashed") ;;

    IF negb (Bool.eqb (isNil goErr) (isNil gcErr)) || negb (Bool.eqb (isNil goErr) (isNil gccgoErr)) THEN (
      Printf ("go/types result: " ++ fmt_v goErr ++ nl "") ;;
      Printf ("gc result: " ++ fmt_v gcErr ++ nl "") ;;
      Printf ("gccgo result: " ++ fmt_v gccgoErr ++ nl "") ;;
      PANIC "gc, gccgo and go/types disagree") ;;
    IF notNil goErr THEN RETURN 0%Z ;;
    IF Match formatBug1 data || Match formatBug2 data THEN RETURN 1%Z ;;
    let data := bytes_Replace data [CR] [SP] (-1) in
    '(data1, err) <- ext (FormatSource data) (format_Source tc data) ;;
    IF notNil err THEN PANIC (Error err) ;;
    IF false THEN (
      err <- do (gotypes data1) ;;
      IF notNil err THEN (
        Printf ("new: " ++ fmt_q tc data1 ++ nl "") ;;
        Printf ("err: " ++ fmt_v err ++ nl "") ;;
        PANIC "program become invalid after gofmt")) ;;
    RETURN 1%Z).

(** ** The rules of [Fuzz], by block

    The same conditions as in [Fuzz], grouped by the block of the source
    they come from and kept in the source's order.  [Fuzz_unfold] below
    proves that [Fuzz] is the decision these blocks describe. *)

(** Lines 39-46: the tests made on the bytes before anything is run. *)
Definition prefilter (data : list byte) : bool :=
  Match bigNum data || Match issue11531 data.

(** Lines 51-77: the filed divergences between go/types and gc. *)
Definition gc_divergence (goErr gcErr : error) : bool :=
  (isNil goErr && notNil gcErr && strings_Contains (Error gcErr) "line number out of range") ||
  (isNil goErr && notNil gcErr && strings_Contains (Error gcErr) "stupid shift:") ||
  (isNil gcErr && notNil goErr && strings_Contains (Error goErr) "untyped float constant") ||
  (isNil goErr && notNil gcErr && strings_Contains (Error gcErr) "overflow in int -> string") ||
  (isNil gcErr && notNil goErr && strings_Contains (Error goErr) "illegal character U+") ||
  (isNil goErr && notNil gcErr && strings_Contains (Error gcErr) "larger than address space") ||
  (isNil goErr && notNil gcErr && strings_Contains (Error gcErr) "non-canonical import path").

(** Lines 80-131: gccgo accepts what go/types rejects with the text [m]. *)
Definition go_rejects_known (data : list byte) (m : string) : bool :=
  strings_Contains m "invalid operation: stupid shift count" ||
  ((bytes_Contains data (bytes "//line") || bytes_Contains data (bytes "/*")) &&
   (strings_Contains m "illegal UTF-8 encoding" ||
    strings_Contains m "illegal character NUL")) ||
  strings_Contains m "invalid operation: operator ^ not defined for" ||
  MatchString fpRounding m ||
  (bytes_Contains data (bytes "_") &&
   (strings_Contains m ": undeclared name: " ||
    strings_Contains m "invalid array length")) ||
  strings_Contains m "not enough arguments for complex" ||
  strings_Contains m "operator | not defined for" ||
  strings_Contains m "nil (untyped nil value) is not a type" ||
  strings_Contains m "(built-in) must be called" ||
  strings_Contains m "redeclared in this block" ||
  strings_Contains m "illegal byte order mark" ||
  strings_Contains m "unknown escape sequence".

(** Lines 135-162: go/types accepts what gccgo rejects with the text [m]. *)
Definition gccgo_rejects_known (data : list byte) (m : string) : bool :=
  strings_Contains m "error: string index out of bounds" ||
  strings_Contains m "error: integer constant overflow" ||
  Match issue11533 data ||
  (bytes_Contains data (bytes "0i") &&
   (strings_Contains m "incompatible types in binary expression" ||
    strings_Contains m "initialization expression has wrong type")) ||
  strings_Contains m "invalid character 0x37f in input file" ||
  strings_Contains m "error: incompatible types in binary expression".

(** Lines 51-174: every known divergence between two arms that answer
    differently. *)
Definition known_divergence (data : list byte) (goErr gcErr gccgoErr : error)
  : bool :=
  gc_divergence goErr gcErr ||
  (isNil gccgoErr && notNil goErr && go_rejects_known data (Error goErr)) ||
  (isNil goErr && notNil gccgoErr && gccgo_rejects_known data (Error gccgoErr)) ||
  (isNil goErr && notNil gccgoErr && strings_Contains (Error gccgoErr) ": error: import file ") ||
  ((isNil goErr && notNil gccgoErr || notNil goErr && isNil gccgoErr) && Match issue11528 data).

(** The three crash classes (the tests of lines 177, 194 and 273). *)
Definition gc_crashed (gcErr : error) : bool :=
  notNil gcErr && MatchString gcCrash (Error gcErr).

Definition gccgo_crashed (gccgoErr : error) : bool :=
  notNil gccgoErr && MatchString gccgoCrash (Error gccgoErr).

Definition asan_crashed (gccgoErr : error) : bool :=
  notNil gccgoErr && MatchString asanCrash (Error gccgoErr).

(** The filed crash signatures of each class (lines 178-189, 195-268 and
    274-277). *)
Definition gc_known (m : string) : bool :=
  strings_Contains m "internal compiler error: out of fixed registers" ||
  strings_Contains m "internal compiler error: naddr: bad HMUL" ||
  strings_Contains m "internal compiler error: treecopy Name".

Definition gccgo_known (m : string) : bool :=
  strings_Contains m "warning: no arguments for builtin function ‘print’" ||
  strings_Contains m "error: constant refers to itself" ||
  strings_Contains m "go1: internal compiler error: in set_type, at go/gofrontend/expressions.cc" ||
  strings_Contains m "go1: internal compiler error: in global_variable_set_init, at go/go-gcc.cc" ||
  strings_Contains m "go1: internal compiler error: in wide_int_to_tree, at tree.c" ||
  strings_Contains m "go1: internal compiler error: in record_var_depends_on, at go/gofrontend/gogo.h" ||
  strings_Contains m "go1: internal compiler error: in Builtin_call_expression, at go/gofrontend/expressions.cc" ||
  strings_Contains m "go1: internal compiler error: in check_bounds, at go/gofrontend/expressions.cc" ||
  strings_Contains m "go1: internal compiler error: in do_determine_type, at go/gofrontend/expressions.h" ||
  strings_Contains m "go1: internal compiler error: in backend_numeric_constant_expression, at go/gofrontend/expressions.cc" ||
  strings_Contains m "go1: internal compiler error: in declare_function, at go/gofrontend/gogo.cc" ||
  strings_Contains m "gcc/go/gofrontend/expressions.cc:5756" ||
  strings_Contains m "Send_statement::do_flatten" ||
  strings_Contains m "internal compiler error: in do_get_backend, at go/gofrontend/expressions.cc" ||
  strings_Contains m "go1: internal compiler error: in type_size, at go/go-gcc.cc" ||
  strings_Contains m "go1: internal compiler error: in create_tmp_var, at gimple-expr.c" ||
  strings_Contains m "go1: internal compiler error: in start_function, at go/gofrontend/gogo.cc" ||
  strings_Contains m "go1: internal compiler error: in methods, at go/gofrontend/types.cc".

Definition asan_known (m : string) : bool :=
  strings_Contains m " in Lex::skip_cpp_comment() ../../gcc/go/gofrontend/lex.cc".

(** Line 282: the three arms do not all answer alike. *)
Definition disagree (goErr gcErr gccgoErr : error) : bool :=
  negb (Bool.eqb (isNil goErr) (isNil gcErr)) ||
  negb (Bool.eqb (isNil goErr) (isNil gccgoErr)).

(** Line 292: the inputs the formatter is known to break. *)
Definition formatBug (data : list byte) : bool :=
  Match formatBug1 data || Match formatBug2 data.

(** Line 296: what the formatter is given. *)
Definition unCR (data : list byte) : list byte :=
  bytes_Replace data [CR] [SP] (-1).

(** What the crash of one class does (lines 177-192, 194-271, 273-280):
    nothing to report when the signature is filed, a print of the arm's text
    and a panic otherwise. *)
Definition crash_report (known : bool) (arm : string) (e : error)
  : list event * outcome Z :=
  if known then ([], Returned 0%Z)
  else ([Print (arm ++ " result: " ++ fmt_v e ++ nl "")],
        Panicked (arm ++ " compiler crashed")%string).

(** Lines 283-286. *)
Definition disagreement_report (goErr gcErr gccgoErr : error)
  : list event * outcome Z :=
  ([Print ("go/types result: " ++ fmt_v goErr ++ nl "");
    Print ("gc result: " ++ fmt_v gcErr ++ nl "");
    Print ("gccgo result: " ++ fmt_v gccgoErr ++ nl "")],
   Panicked "gc, gccgo and go/types disagree").

(** Lines 292-309: the formatting of an input every arm accepts. *)
Definition reformat (data : list byte) : list event * outcome Z :=
  if formatBug data then ([], Returned 1%Z)
  else
    match snd (format_Source tc (unCR data)) with
    | Some e => ([FormatSource (unCR data)], Panicked e)
    | None => ([FormatSource (unCR data)], Returned 1%Z)
    end.

(** Lines 51-309: what [Fuzz] does once the arms have answered. *)
Definition classify (data : list byte) (goErr gcErr gccgoErr : error)
  : list event * outcome Z :=
  if known_divergence data goErr gcErr gccgoErr then ([], Returned 0%Z)
  else if gc_crashed gcErr
       then crash_report (gc_known (Error gcErr)) "gc" gcErr
  else if gccgo_crashed gccgoErr
       then crash_report (gccgo_known (Error gccgoErr)) "gccgo" gccgoErr
  else if asan_crashed gccgoErr
       then crash_report (asan_known (Error gccgoErr)) "gccgo" gccgoErr
  else if disagree goErr gcErr gccgoErr
       then disagreement_report goErr gcErr gccgoErr
  else if notNil goErr then ([], Returned 0%Z)
  else reformat data.

(** ** The words of the specification

    The specification speaks of verdicts and of a two-way oracle; these
    definitions say what the words mean on the source's values. *)

(** The verdict of an arm whose crash patterns are [crash]: no error is
    [Valid], an error whose text matches a crash pattern is [Crashed], any
    other error is [Invalid]. *)
Definition verdict_of (crash : string -> bool) (e : error) : verdict :=
  match e with
  | None => Valid
  | Some m => if crash m then Crashed else Invalid
  end.

(** The reference front end has no crash pattern: its faults are panics. *)
Definition ref_verdict (goErr : error) : verdict :=
  verdict_of (fun _ => false) goErr.

Definition gc_verdict (gcErr : error) : verdict :=
  verdict_of (MatchString gcCrash) gcErr.

Definition gccgo_verdict (gccgoErr : error) : verdict :=
  verdict_of (fun m => MatchString gccgoCrash m || MatchString asanCrash m)
             gccgoErr.

(** Some filed crash signature excuses the crash the source tests for. *)
Definition crash_suppressed (gcErr gccgoErr : error) : bool :=
  (gc_crashed gcErr && gc_known (Error gcErr)) ||
  (gccgo_crashed gccgoErr && gccgo_known (Error gccgoErr)) ||
  (asan_crashed gccgoErr && asan_known (Error gccgoErr)).

(** Some crash pattern matches. *)
Definition any_crashed (gcErr gccgoErr : error) : bool :=
  gc_crashed gcErr || gccgo_crashed gccgoErr || asan_crashed gccgoErr.

(** What the crash blocks decide, in the order of the source: the first
    class whose pattern matches is the only one whose signatures are
    looked at. *)
Definition crash_disposition (gcErr gccgoErr : error) : outcome Z :=
  if gc_crashed gcErr
  then snd (crash_report (gc_known (Error gcErr)) "gc" gcErr)
  else if gccgo_crashed gccgoErr
  then snd (crash_report (gccgo_known (Error gccgoErr)) "gccgo" gccgoErr)
  else snd (crash_report (asan_known (Error gccgoErr)) "gccgo" gccgoErr).

(** The divergences between go/types and gccgo alone (lines 79-174). *)
Definition known_divergence2 (data : list byte) (goErr gccgoErr : error)
  : bool :=
  (isNil gccgoErr && notNil goErr && go_rejects_known data (Error goErr)) ||
  (isNil goErr && notNil gccgoErr && gccgo_rejects_known data (Error gccgoErr)) ||
  (isNil goErr && notNil gccgoErr && strings_Contains (Error gccgoErr) ": error: import file ") ||
  ((isNil goErr && notNil gccgoErr || notNil goErr && isNil gccgoErr) && Match issue11528 data).

(** The oracle with two arms: [Fuzz] without the rules that compare
    go/types with gc (lines 51-77) and without the go/types against gc half
    of line 282.  The crash-signature blocks are no comparison and stay; the
    one of the gc class reads the text of the reference front end, which is
    what the alias of line 49 hands it. *)
Definition Fuzz_two_way (data : list byte) : call Z :=
  func (
    IF prefilter data THEN RETURN 0%Z ;;
    goErr <- do (gotypes data) ;;
    gccgoErr <- do (gccgo data) ;;
    IF known_divergence2 data goErr gccgoErr THEN RETURN 0%Z ;;
    IF gc_crashed goErr THEN (
      IF gc_known (Error goErr) THEN RETURN 0%Z ;;
      Printf ("gc result: " ++ fmt_v goErr ++ nl "") ;;
      PANIC "gc compiler crashed") ;;
    IF gccgo_crashed gccgoErr THEN (
      IF gccgo_known (Error gccgoErr) THEN RETURN 0%Z ;;
      Printf ("gccgo result: " ++ fmt_v gccgoErr ++ nl "") ;;
      PANIC "gccgo compiler crashed") ;;
    IF asan_crashed gccgoErr THEN (
      IF asan_known (Error gccgoErr) THEN RETURN 0%Z ;;
      Printf ("gccgo result: " ++ fmt_v gccgoErr ++ nl "") ;;
      PANIC "gccgo compiler crashed") ;;
    IF negb (Bool.eqb (isNil goErr) (isNil gccgoErr)) THEN (
      Printf ("go/types result: " ++ fmt_v goErr ++ nl "") ;;
      Printf ("gccgo result: " ++ fmt_v gccgoErr ++ nl "") ;;
      PANIC "gc, gccgo and go/types disagree") ;;
    IF notNil goErr THEN RETURN 0%Z ;;
    IF formatBug data THEN RETURN 1%Z ;;
    '(data1, err) <- ext (FormatSource (unCR data))
                         (format_Source tc (unCR data)) ;;
    IF notNil err THEN PANIC (Error err) ;;
    RETURN 1%Z).

(** What the two-way oracle does once both arms have answered. *)
Definition classify2 (data : list byte) (goErr gccgoErr : error)
  : list event * outcome Z :=
  if known_divergence2 data goErr gccgoErr then ([], Returned 0%Z)
  else if gc_crashed goErr
       then crash_report (gc_known (Error goErr)) "gc" goErr
  else if gccgo_crashed gccgoErr
       then crash_report (gccgo_known (Error gccgoErr)) "gccgo" gccgoErr
  else if asan_crashed gccgoErr
       then crash_report (asan_known (Error gccgoErr)) "gccgo" gccgoErr
  else if negb (Bool.eqb (isNil goErr) (isNil gccgoErr))
       then ([Print ("go/types result: " ++ fmt_v goErr ++ nl "");
              Print ("gccgo result: " ++ fmt_v gccgoErr ++ nl "")],
             Panicked "gc, gccgo and go/types disagree")
  else if notNil goErr then ([], Returned 0%Z)
  else reformat data.

End Oracle.

(** The calls of a trace, without what was printed. *)
Definition is_call (e : event) : bool :=
  match e with Print _ => false | _ => true end.

Definition calls (t : list event) : list event := filter is_call t.

(** The events of the reference front end on [data]. *)
Definition front_end_event (data : list byte) (e : event) : Prop :=
  e = ParseFile data \/ e = TypesCheck \/ e = BuildAll \/ e = WriteTo.

(** Whether a call ended in a panic, whatever the message. *)
Definition panicked {R} (o : outcome R) : bool :=
  match o with Panicked _ => true | Returned _ => false end.

(** ** Scripted toolchains

    Collaborators with fixed answers, to run the oracle on: the reference
    front end answers [goErr] from its checker, [go1] prints [out] and exits
    with [exitErr], and the formatter is [fmt]. *)
Definition scripted (goErr : error) (out : string) (exitErr : error)
           (fmt : list byte -> list byte * error) : toolchain :=
  {| ast_File := unit;
     parser_ParseFile := fun _ => (tt, None);
     types_Check := fun _ => goErr;
     ssa_Package := unit;
     ssa_AllPackages := fun _ => [];
     ssa_WriteTo := fun _ => None;
     exec_go1 := fun _ => (out, exitErr);
     format_Source := fmt;
     fmt_q := fun _ => "" |}.

(** A formatter that always succeeds, one that always fails, and one that
    fails on any input holding a carriage return. *)
Definition fmt_ok (d : list byte) : list byte * error := (d, None).

Definition fmt_fails (d : list byte) : list byte * error :=
  ([], Some "1:1: expected declaration").

Definition fmt_no_CR (d : list byte) : list byte * error :=
  if bytes_Contains d [CR] then ([], Some "1:1: illegal character")
  else (d, None).

(** The exit error of a failed [go1]. *)
Definition exit1 : error := Some "exit status 1".

(** Inputs and toolchains of the runs below. *)

Definition src_p : list byte := bytes "package p".

(** A source with a carriage return before its line feed. *)
Definition src_CRLF : list byte := bytes "package p" ++ [CR; LF].

(** A source with a comment over two lines ([issue11528] matches). *)
Definition src_comment : list byte :=
  bytes "package p /*" ++ [LF] ++ bytes "*/".

(** A source with an exponent of four digits ([bigNum] matches). *)
Definition src_bigNum : list byte := bytes "package p; var x = 1e1000".

(** Every arm accepts. *)
Definition tc_valid : toolchain := scripted None "" None fmt_ok.

(** Every arm accepts; the formatter refuses carriage returns. *)
Definition tc_valid_no_CR : toolchain := scripted None "" None fmt_no_CR.

(** Every arm accepts; the formatter fails. *)
Definition tc_fmt_fails : toolchain := scripted None "" None fmt_fails.

(** Both arms reject, with ordinary errors. *)
Definition err_undeclared : error := Some "src.go:1:20: undeclared name: x".

Definition out_undefined : string :=
  "<stdin>:1:20: error: reference to undefined name".

Definition tc_both_reject : toolchain :=
  scripted err_undeclared out_undefined exit1 fmt_ok.

(** go/types accepts, gccgo rejects with a filed message (issue 11525). *)
Definition out_overflow : string :=
  "<stdin>:1:15: error: integer constant overflow".

Definition tc_overflow : toolchain := scripted None out_overflow exit1 fmt_ok.

(** go/types accepts, gccgo rejects with a message nobody filed. *)
Definition out_semicolon : string :=
  "<stdin>:1:15: error: unexpected semicolon".

Definition tc_new_divergence : toolchain :=
  scripted None out_semicolon exit1 fmt_ok.

(** go/types accepts, gccgo crashes with a signature nobody filed. *)
Definition out_new_crash : string :=
  nl "go1: internal compiler error: in fresh_fault, at go/gofrontend/fresh.cc:1".

Definition tc_new_crash : toolchain := scripted None out_new_crash exit1 fmt_ok.

(** The same crash, after a filed message. *)
Definition out_crash_after_overflow : string := out_overflow ++ out_new_crash.

Definition tc_crash_after_overflow : toolchain :=
  scripted None out_crash_after_overflow exit1 fmt_ok.

(** The same crash, before a sanitizer report whose signature is filed. *)
Definition out_crash_and_asan : string :=
  out_new_crash ++
  nl "==7==ERROR: AddressSanitizer: heap-use-after-free in Lex::skip_cpp_comment() ../../gcc/go/gofrontend/lex.cc:1".

Definition tc_crash_and_asan : toolchain :=
  scripted None out_crash_and_asan exit1 fmt_ok.

(** The error [gccgo] makes of an output and the exit error. *)
Definition go1_error (out : string) : error :=
  Some (out ++ nl "exit status 1")%string.

(** ** The gc arm (main.go, lines 340-357)

    [gc] writes the input to a temporary file, runs the program [compile]
    on it and removes the file.  [Fuzz] does not call it (line 48), so it has
    a trace of its own: the file and process operations it makes.  Its
    collaborators are what [ioutil.TempFile] gives (the name of the file it
    made and an error), what [f.Write] gives for a file and the bytes, and
    the combined output and exit error of [compile] on a file. *)

Inductive fs_event : Type :=
| TempFile (dir pattern : string)
| FileWrite (name : string) (data : list byte)
| FileClose (name : string)
| Remove (name : string)
| Run (prog : string) (args : list string).

Record gc_world : Type := {
  ioutil_TempFile : string * error;
  file_Write : string -> list byte -> error;
  exec_compile : string -> string * error
}.

(** The statements of [gc]: those of [Fuzz], over the events of [gc]. *)
Definition fs_stmt (R A : Type) : Type := (list fs_event * flow R A)%type.
Definition fs_call (R : Type) : Type := (list fs_event * outcome R)%type.

Definition fs_bind {R A B} (s : fs_stmt R A) (k : A -> fs_stmt R B)
  : fs_stmt R B :=
  match s with
  | (t, Next a) => let (t', f) := k a in (t ++ t', f)
  | (t, Return r) => (t, Return r)
  | (t, Panic m) => (t, Panic m)
  end.

Definition fs_return {R A} (r : R) : fs_stmt R A := ([], Return r).

Definition fs_when {R} (c : bool) (s : fs_stmt R unit) : fs_stmt R unit :=
  if c then s else ([], Next tt).

Definition fs_ext {R A} (e : fs_event) (a : A) : fs_stmt R A :=
  ([e], Next a).

Definition fs_func {R} (body : fs_stmt R Empty_set) : fs_call R :=
  match body with
  | (_, Next a) => match a with end
  | (t, Return r) => (t, Returned r)
  | (t, Panic m) => (t, Panicked m)
  end.

(** [defer e]: the call [e], whose answer is dropped, is made when the rest
    of the body has ended, however it ended.  Of two deferred calls the one
    deferred last is made first. *)
Definition defer {R A} (e : fs_event) (rest : fs_stmt R A) : fs_stmt R A :=
  let (t, f) := rest in (t ++ [e], f).

Declare Scope gc_scope.
Delimit Scope gc_scope with gc.

Notation "x <- s ;; k" := (fs_bind s (fun x => k))
  (at level 100, s at level 99, k at level 200, right associativity)
  : gc_scope.
Notation "' p <- s ;; k" := (fs_bind s (fun x => let 'p := x in k))
  (at level 100, p pattern, s at level 99, k at level 200,
   right associativity) : gc_scope.
Notation "s ;; k" := (fs_bind s (fun _ => k))
  (at level 100, k at level 200, right associativity) : gc_scope.
Notation "'IF' c 'THEN' s" := (fs_when c s)
  (at level 99, c at level 98, s at level 99) : gc_scope.

Definition gc (w : gc_world) (data : list byte) : fs_call error :=
  fs_func (
    '(f, err) <- fs_ext (TempFile "" "fuzz.gc") (ioutil_TempFile w) ;;
    IF notNil err THEN fs_return err ;;
    defer (Remove f) (
    defer (FileClose f) (
    err <- fs_ext (FileWrite f data) (file_Write w f data) ;;
    IF notNil err THEN fs_return err ;;
    fs_ext (FileClose f) tt ;;
    '(out, err) <- fs_ext (Run "compile" [f]) (exec_compile w f) ;;
    IF notNil err THEN fs_return (Some (out ++ nl (Error err))%string) ;;
    fs_return None)))%gc.

(** A world with fixed answers, to run [gc] in. *)
Definition gc_scripted (name : string) (tmpErr writeErr : error)
           (out : string) (exitErr : error) : gc_world :=
  {| ioutil_TempFile := (name, tmpErr);
     file_Write := fun _ _ => writeErr;
     exec_compile := fun _ => (out, exitErr) |}.

(** ** More words for the properties below *)

(** A byte of the class [[0-9]], and of the white space of [issue11531]. *)
Definition is_digit (c : byte) : bool :=
  (48 <=? Byte.to_N c)%N && (Byte.to_N c <=? 57)%N.

Definition is_blank (c : byte) : bool := byte_in [SP; TAB; CR; LF] c.

(** The events of [Fuzz] that are not those of the reference front end. *)
Definition go1_call (data : list byte) : list event := [Exec "go1" data].

(** The loop of [gotypes] (lines 331-336) on the packages [pkgs]. *)
Definition write_all (tc : toolchain) (pkgs : list (ssa_Package tc))
  : stmt error unit :=
  for_range pkgs (fun pkg =>
    err <- ext WriteTo (ssa_WriteTo tc pkg) ;;
    IF notNil err THEN PANIC (Error err)).

(** Every package is written without an error. *)
Definition writes_ok (tc : toolchain) (pkgs : list (ssa_Package tc)) : Prop :=
  Forall (fun pkg => ssa_WriteTo tc pkg = None) pkgs.

(** A toolchain whose second of three packages cannot be written. *)
Definition tc_ssa_fails : toolchain :=
  {| ast_File := unit;
     parser_ParseFile := fun _ => (tt, None);
     types_Check := fun _ => None;
     ssa_Package := nat;
     ssa_AllPackages := fun _ => [0; 1; 2];
     ssa_WriteTo := fun n => if Nat.eqb n 1 then Some "short write" else None;
     exec_go1 := fun _ => ("", None);
     format_Source := fmt_ok;
     fmt_q := fun _ => "" |}.

(** A byte of the white space class of the [formatBug] patterns. *)
Definition is_space6 (c : byte) : bool := byte_in [SP; TAB; LF; CR; FF; VT] c.

(** A byte that [.] matches. *)
Definition not_LF (c : byte) : bool := negb (Byte.eqb c LF).

(** The events of a run of [gc]. *)
Definition trace_of_gc {R} (c : fs_call R) : list fs_event := fst c.

(** A world in which [gc] meets no error. *)
Definition gc_world_ok : gc_world :=
  gc_scripted "/tmp/fuzz.gc042" None None "" None.

(** A source with a qualified name. *)
Definition src_dot : list byte := bytes "package p; var x = os.Args".

(** ** The matchers meet their reading *)

Section Matching.

Lemma lang_cat_inv (r1 r2 : regexp) (w : list byte) :
  lang (Cat r1 r2) w ->
  exists w1 w2, w = w1 ++ w2 /\ lang r1 w1 /\ lang r2 w2.
Proof. intros H. inversion H; subst. eauto. Qed.

Lemma lang_alt_inv (r1 r2 : regexp) (w : list byte) :
  lang (Alt r1 r2) w -> lang r1 w \/ lang r2 w.
Proof. intros H. inversion H; subst; auto. Qed.

Lemma lang_nil_cat (r1 r2 : regexp) :
  lang (Cat r1 r2) [] -> lang r1 [] /\ lang r2 [].
Proof.
  intros H. apply lang_cat_inv in H. destruct H as (w1 & w2 & E & H1 & H2).
  symmetry in E. apply app_eq_nil in E. destruct E; subst. now split.
Qed.

Lemma nullable_lang (r : regexp) : nullable r = true <-> lang r [].
Proof.
  induction r as [| |p|r1 IH1 r2 IH2|r1 IH1 r2 IH2|r IH]; cbn.
  - split; [discriminate | intros H; inversion H].
  - split; [constructor | reflexivity].
  - split; [discriminate | intros H; inversion H].
  - rewrite Bool.andb_true_iff, IH1, IH2. split.
    + intros [H1 H2]. exact (lang_cat H1 H2).
    + apply lang_nil_cat.
  - rewrite Bool.orb_true_iff, IH1, IH2. split.
    + intros [H | H]; [now apply lang_alt_l | now apply lang_alt_r].
    + apply lang_alt_inv.
  - split; [constructor | reflexivity].
Qed.

(** A non-empty word of a star starts with a non-empty word of its body. *)
Lemma lang_star_cons_inv (r : regexp) (c : byte) (w : list byte) :
  lang (Star r) (c :: w) ->
  exists w1 w2, w = w1 ++ w2 /\ lang r (c :: w1) /\ lang (Star r) w2.
Proof.
  intros H. remember (Star r) as s eqn:Es. remember (c :: w) as cw eqn:Ew.
  revert Es Ew.
  induction H as [| | | | | |r' w1 w2 H1 _ H2 IH2]; try discriminate.
  intros Es Ew. injection Es as ->. destruct w1 as [|c1 w1].
  - cbn in Ew. now apply IH2.
  - cbn in Ew. injection Ew as -> <-. now exists w1, w2.
Qed.

Lemma deriv_lang (c : byte) (r : regexp) (w : list byte) :
  lang (deriv c r) w <-> lang r (c :: w).
Proof.
  revert w.
  induction r as [| |p|r1 IH1 r2 IH2|r1 IH1 r2 IH2|r IH]; intros w; cbn.
  - split; intros H; inversion H.
  - split; intros H; inversion H.
  - destruct (p c) eqn:Ep; split; intros H; inversion H; subst.
    + now constructor.
    + constructor.
    + congruence.
  - assert (Hcat : lang (Cat (deriv c r1) r2) w ->
                   lang (Cat r1 r2) (c :: w)).
    { intros H. apply lang_cat_inv in H.
      destruct H as (w1 & w2 & -> & H1 & H2).
      apply IH1 in H1. exact (lang_cat H1 H2). }
    assert (Hinv : lang (Cat r1 r2) (c :: w) ->
                   lang (Cat (deriv c r1) r2) w \/
                   (lang r1 [] /\ lang (deriv c r2) w)).
    { intros H. apply lang_cat_inv in H.
      destruct H as (w1 & w2 & E & H1 & H2).
      destruct w1 as [|c1 w1]; cbn in E.
      - subst w2. right. split; [assumption | now apply IH2].
      - injection E as <- ->. left.
        apply lang_cat; [now apply IH1 | assumption]. }
    destruct (nullable r1) eqn:En.
    + split.
      * intros H. apply lang_alt_inv in H.
        destruct H as [H | H]; [now apply Hcat|].
        apply nullable_lang in En.
        apply (@lang_cat r1 r2 [] (c :: w)); [assumption | now apply IH2].
      * intros H. destruct (Hinv H) as [H' | [_ H']];
          [now apply lang_alt_l | now apply lang_alt_r].
    + split; [exact Hcat|].
      intros H. destruct (Hinv H) as [H' | [H' _]]; [assumption|].
      apply nullable_lang in H'. congruence.
  - split; intros H; apply lang_alt_inv in H; destruct H as [H | H].
    + apply lang_alt_l. now apply IH1.
    + apply lang_alt_r. now apply IH2.
    + apply lang_alt_l. now apply IH1.
    + apply lang_alt_r. now apply IH2.
  - split.
    + intros H. apply lang_cat_inv in H.
      destruct H as (w1 & w2 & -> & H1 & H2).
      apply IH in H1. exact (lang_star_cons H1 H2).
    + intros H. apply lang_star_cons_inv in H.
      destruct H as (w1 & w2 & -> & H1 & H2).
      apply lang_cat; [now apply IH | assumption].
Qed.

(** [match_prefix] finds the words of the pattern that start the input. *)
Lemma match_prefix_spec (r : regexp) (s : list byte) :
  match_prefix r s = true <->
  exists w rest, s = w ++ rest /\ lang r w.
Proof.
  revert r. induction s as [|c s IH]; intros r; cbn.
  - rewrite Bool.orb_false_r, nullable_lang. split.
    + intros H. now exists [], [].
    + intros (w & rest & E & H). symmetry in E.
      apply app_eq_nil in E. destruct E; now subst.
  - rewrite Bool.orb_true_iff, nullable_lang, IH. split.
    + intros [H | (w & rest & -> & H)].
      * now exists [], (c :: s).
      * exists (c :: w), rest. split; [reflexivity | now apply deriv_lang].
    + intros (w & rest & E & H). destruct w as [|c' w]; [now left|].
      cbn in E. injection E as <- ->. right.
      exists w, rest. split; [reflexivity | now apply deriv_lang].
Qed.

(** [Match] finds the words of the pattern anywhere in the input. *)
Lemma Match_spec (r : regexp) (b : list byte) :
  Match r b = true <->
  exists pre w post, b = pre ++ w ++ post /\ lang r w.
Proof.
  induction b as [|c b IH]; cbn [Match].
  - rewrite Bool.orb_false_r, match_prefix_spec. split.
    + intros (w & rest & E & H). now exists [], w, rest.
    + intros (pre & w & post & E & H). symmetry in E.
      apply app_eq_nil in E. destruct E as [-> E].
      exists w, post. split; [now rewrite E | assumption].
  - rewrite Bool.orb_true_iff, match_prefix_spec, IH. split.
    + intros [(w & rest & E & H) | (pre & w & post & -> & H)].
      * now exists [], w, rest.
      * now exists (c :: pre), w, post.
    + intros (pre & w & post & E & H). destruct pre as [|c' pre].
      * left. now exists w, post.
      * cbn in E. injection E as <- ->. right. now exists pre, w, post.
Qed.

(** The alternation of [bigNum] is its outermost operator, so a lone dot
    is a word of it: every input that holds a dot is pre-filtered. *)
Lemma bigNum_matches_any_dot (data : list byte) :
  In "."%byte data -> Match bigNum data = true.
Proof.
  intros H. apply in_split in H. destruct H as (pre & post & ->).
  apply Match_spec. exists pre, ["."%byte], post. split; [reflexivity|].
  apply lang_alt_l.
  apply (@lang_cat (lit ".") (Star digit) ["."%byte] []);
    [|apply lang_star_nil].
  apply (@lang_cat (chr "."%byte) Eps ["."%byte] []); constructor.
  reflexivity.
Qed.

(** [bytes.HasPrefix] and [bytes.Contains] meet theirs. *)
Lemma HasPrefix_spec (s prefix : list byte) :
  HasPrefix s prefix = true <-> exists rest, s = prefix ++ rest.
Proof.
  revert s. induction prefix as [|p prefix IH]; intros s; cbn.
  - split; [intros _; now exists s | reflexivity].
  - destruct s as [|c s].
    + split; [discriminate | intros (rest & E); discriminate E].
    + rewrite Bool.andb_true_iff, IH. split.
      * intros (E & rest & ->). apply Byte.byte_dec_bl in E. subst.
        now exists rest.
      * intros (rest & E). injection E as -> ->. split; [|now exists rest].
        now apply Byte.byte_dec_lb.
Qed.

Lemma bytes_Contains_spec (b sub : list byte) :
  bytes_Contains b sub = true <->
  exists pre post, b = pre ++ sub ++ post.
Proof.
  induction b as [|c b IH]; cbn [bytes_Contains].
  - rewrite Bool.orb_false_r, HasPrefix_spec. split.
    + intros (rest & E). now exists [], rest.
    + intros (pre & post & E). symmetry in E.
      apply app_eq_nil in E. destruct E as [-> E]. now exists post.
  - rewrite Bool.orb_true_iff, HasPrefix_spec, IH. split.
    + intros [(rest & E) | (pre & post & ->)].
      * now exists [], rest.
      * now exists (c :: pre), post.
    + intros (pre & post & E). destruct pre as [|c' pre].
      * left. now exists post.
      * cbn in E. injection E as <- ->. right. now exists pre, post.
Qed.

End Matching.

Arguments strings_Contains : simpl never.
Arguments bytes_Contains : simpl never.
Arguments Match : simpl never.
Arguments MatchString : simpl never.
Arguments bytes_Replace : simpl never.
Arguments bytes : simpl never.
Arguments String.append : simpl never.

(** ** The oracle is the decision of its blocks *)

Section Decision.

Variable tc : toolchain.

(** One step of a body, read off its first statement. *)

Lemma step_when_true {R} (s : stmt R unit) (k : unit -> stmt R Empty_set) X :
  func (bind s k) = X -> func (bind (when true s) k) = X.
Proof. exact (fun H => H). Qed.

Lemma step_when_false {R} (s : stmt R unit) (k : unit -> stmt R Empty_set) X :
  func (k tt) = X -> func (bind (when false s) k) = X.
Proof. intros <-. cbn. destruct (k tt) as [t [[]|r|m]]; reflexivity. Qed.

Lemma step_assoc {R A B} (s : stmt R A) (k1 : A -> stmt R B)
      (k2 : B -> stmt R Empty_set) X :
  func (bind s (fun x => bind (k1 x) k2)) = X ->
  func (bind (bind s k1) k2) = X.
Proof.
  intros <-. destruct s as [t [a|r|m]]; cbn; try reflexivity.
  destruct (k1 a) as [t1 [b|r|m]]; cbn; try reflexivity.
  destruct (k2 b) as [t2 [[]|r|m]]; cbn; now rewrite app_assoc.
Qed.

Lemma func_do {R A} (c : call A) (k : A -> stmt R Empty_set) :
  func (bind (do c) k) =
  match c with
  | (t, Returned a) => let (t', o) := func (k a) in (t ++ t', o)
  | (t, Panicked m) => (t, Panicked m)
  end.
Proof.
  destruct c as [t [a|m]]; cbn; [|reflexivity].
  destruct (k a) as [t' [[]|r|m]]; reflexivity.
Qed.

Lemma step_if {R} (c : bool) (s : stmt R unit)
      (k : unit -> stmt R Empty_set) X Y :
  func (bind s k) = X -> func (k tt) = Y ->
  func (bind (when c s) k) = if c then X else Y.
Proof.
  intros <- <-. destruct c; [reflexivity|].
  now apply step_when_false.
Qed.

Lemma rhs_or {A} (L : A) (a b : bool) (X Y : A) :
  L = (if a then X else if b then X else Y) ->
  L = (if a || b then X else Y).
Proof. intros ->. now destruct a, b. Qed.

Ltac step :=
  lazymatch goal with
  | |- func (bind (when true _) _) = _ => apply step_when_true
  | |- func (bind (when false _) _) = _ => apply step_when_false; cbv beta
  | |- func (bind (when ?c _) _) = (if ?c then _ else _) =>
      apply step_if; [|cbv beta]
  | |- func (bind (when _ _) _) = (if (_ || _) then _ else _) =>
      apply rhs_or
  | |- func (bind (bind _ _) _) = _ => apply step_assoc; cbv beta
  | |- func (bind (RETURN _) _) = _ => reflexivity
  | |- func (bind (Printf _) _) = _ => reflexivity
  end.

Lemma Fuzz_unfold (data : list byte) :
  Fuzz tc data =
  if prefilter data then ([], Returned 0%Z)
  else
    match gotypes tc data with
    | (tg, Panicked m) => (tg, Panicked m)
    | (tg, Returned goErr) =>
        match gccgo tc data with
        | (tx, Panicked m) => (tg ++ tx, Panicked m)
        | (tx, Returned gccgoErr) =>
            let (t, o) := classify tc data goErr goErr gccgoErr in
            (tg ++ tx ++ t, o)
        end
    end.
Proof.
  unfold Fuzz, prefilter.
  repeat step.
  rewrite func_do.
  destruct (gotypes tc data) as [tg [goErr|m]]; [|reflexivity].
  cbv zeta. rewrite func_do.
  destruct (gccgo tc data) as [tx [gccgoErr|m]]; [|reflexivity].
  match goal with
  | |- context [func ?b] =>
      enough (E : func b = classify tc data goErr goErr gccgoErr)
  end.
  { rewrite E. destruct (classify tc data goErr goErr gccgoErr).
    now rewrite app_assoc. }
  unfold classify, known_divergence, gc_divergence, go_rejects_known,
    gccgo_rejects_known, gc_crashed, gccgo_crashed, asan_crashed, gc_known,
    gccgo_known, asan_known, crash_report, disagree, disagreement_report,
    reformat, formatBug, unCR.
  destruct goErr as [gm|], gccgoErr as [xm|];
    cbn [isNil notNil negb andb orb Error Bool.eqb].
  all: repeat step.
  all: destruct (format_Source tc _) as [d1 [e|]]; reflexivity.
Qed.

(** [Fuzz] once both arms have answered. *)
Lemma Fuzz_classified (data : list byte) (goErr gccgoErr : error) :
  prefilter data = false ->
  result (gotypes tc data) = Returned goErr ->
  result (gccgo tc data) = Returned gccgoErr ->
  Fuzz tc data =
  (trace (gotypes tc data) ++ trace (gccgo tc data) ++
     fst (classify tc data goErr goErr gccgoErr),
   snd (classify tc data goErr goErr gccgoErr)).
Proof.
  intros Hpre Hgo Hgccgo. rewrite Fuzz_unfold, Hpre.
  unfold result, trace in *.
  destruct (gotypes tc data) as [tg og], (gccgo tc data) as [tx ox].
  cbn in Hgo, Hgccgo. subst og ox.
  now destruct (classify tc data goErr goErr gccgoErr).
Qed.

(** The alias of line 49 makes every rule of lines 51-77 dead. *)
Lemma gc_divergence_alias (goErr : error) : gc_divergence goErr goErr = false.
Proof. now destruct goErr. Qed.

Lemma known_divergence_alias (data : list byte) (goErr gccgoErr : error) :
  known_divergence data goErr goErr gccgoErr =
  known_divergence2 data goErr gccgoErr.
Proof.
  unfold known_divergence, known_divergence2.
  now rewrite gc_divergence_alias.
Qed.

Lemma disagree_alias (goErr gccgoErr : error) :
  disagree goErr goErr gccgoErr =
  negb (Bool.eqb (isNil goErr) (isNil gccgoErr)).
Proof. unfold disagree. now rewrite Bool.eqb_reflx. Qed.

(** [gccgo] makes one call and never panics. *)
Lemma gccgo_eq (data : list byte) :
  gccgo tc data =
  ([Exec "go1" data],
   Returned match exec_go1 tc data with
            | (out, Some e) => Some (out ++ nl e)%string
            | (_, None) => None
            end).
Proof.
  unfold gccgo. destruct (exec_go1 tc data) as [out [e|]]; reflexivity.
Qed.

(** A loop makes the events of its body. *)
Lemma for_range_trace {R A} (P : event -> Prop) (xs : list A)
      (body : A -> stmt R unit) :
  (forall x, Forall P (fst (body x))) ->
  Forall P (fst (for_range xs body)).
Proof.
  intros Hbody. induction xs as [|x xs IH]; cbn; [constructor|].
  specialize (Hbody x). destruct (body x) as [t [[]|r|m]]; cbn in *; auto.
  destruct (for_range xs body) as [t' f]. cbn in *.
  apply Forall_app. split; assumption.
Qed.

(** The reference front end makes only its own calls. *)
Lemma gotypes_trace (data : list byte) :
  Forall (front_end_event data) (trace (gotypes tc data)).
Proof.
  unfold gotypes, trace, front_end_event.
  destruct (parser_ParseFile tc data) as [f [e|]]; cbn.
  { repeat (apply Forall_cons; [auto 6|]). apply Forall_nil. }
  destruct (types_Check tc f) as [e|]; cbn.
  { repeat (apply Forall_cons; [auto 6|]). apply Forall_nil. }
  match goal with
  | |- context [for_range ?l ?b] =>
      assert (H : Forall (eq WriteTo) (fst (for_range l b)));
      [|destruct (for_range l b) as [t [[]|r|m]]]
  end.
  { apply for_range_trace. intros pkg.
    destruct (ssa_WriteTo tc pkg); cbn; repeat constructor. }
  all: cbn in *; repeat (apply Forall_cons; [auto 6|]).
  all: try rewrite app_nil_r.
  all: eapply Forall_impl; [|exact H]; cbn; intros ? <-; auto 6.
Qed.

Lemma gotypes_calls (data : list byte) :
  calls (trace (gotypes tc data)) = trace (gotypes tc data).
Proof.
  pose proof (gotypes_trace data) as H. unfold calls.
  induction H as [|e t He _ IH]; [reflexivity|]. cbn. rewrite IH.
  now destruct He as [-> | [-> | [-> | ->]]].
Qed.

Lemma gotypes_never_formats (data d : list byte) :
  ~ In (FormatSource d) (trace (gotypes tc data)).
Proof.
  intros Hin. pose proof (gotypes_trace data) as H.
  rewrite Forall_forall in H. apply H in Hin.
  now destruct Hin as [E | [E | [E | E]]].
Qed.

Lemma gccgo_trace (data : list byte) :
  trace (gccgo tc data) = [Exec "go1" data].
Proof. now rewrite gccgo_eq. Qed.

(** The verdicts of the specification, on the tests of the source. *)
Lemma gc_verdict_Crashed (e : error) :
  gc_verdict e = Crashed <-> gc_crashed e = true.
Proof.
  unfold gc_verdict, verdict_of, gc_crashed.
  destruct e as [m|]; cbn [notNil isNil negb andb Error].
  - destruct (MatchString gcCrash m); split; intros; congruence.
  - split; discriminate.
Qed.

Lemma gccgo_verdict_Crashed (e : error) :
  gccgo_verdict e = Crashed <-> gccgo_crashed e || asan_crashed e = true.
Proof.
  unfold gccgo_verdict, verdict_of, gccgo_crashed, asan_crashed.
  destruct e as [m|]; cbn [notNil isNil negb andb Error].
  - destruct (MatchString gccgoCrash m), (MatchString asanCrash m);
      split; cbn; intros; congruence.
  - split; discriminate.
Qed.

(** Where the formatter is called from. *)
Lemma classify_formats (data d : list byte) (goErr gccgoErr : error) :
  In (FormatSource d) (fst (classify tc data goErr goErr gccgoErr)) ->
  goErr = None /\ gccgoErr = None /\ formatBug data = false /\
  d = unCR data.
Proof.
  unfold classify, crash_report, disagreement_report, reformat.
  repeat match goal with
         | |- context [if ?c then _ else _] => destruct c eqn:?
         | |- context [match ?c with Some _ => _ | None => _ end] =>
             destruct c eqn:?
         end; cbn; intros H;
    repeat match goal with
           | H : _ \/ _ |- _ => destruct H
           | H : False |- _ => destruct H
           | H : Print _ = FormatSource _ |- _ => discriminate H
           end.
  all: match goal with
       | H : FormatSource _ = FormatSource _ |- _ => injection H as <-
       end.
  all: destruct goErr; try discriminate; destruct gccgoErr;
    try discriminate; auto.
Qed.

(** ** The claims *)

(** C8.  An input that matches a pre-filter pattern ([bigNum] or
    [issue11531]) makes [Fuzz] return 0 at once: the trace is empty, so
    neither the reference front end nor an external compiler nor the
    formatter was called. *)
Theorem prefilter_skips_before_any_call (data : list byte) :
  Match bigNum data = true \/ Match issue11531 data = true ->
  Fuzz tc data = ([], Returned 0%Z).
Proof.
  intros H. rewrite Fuzz_unfold. unfold prefilter.
  destruct H as [-> | ->]; [reflexivity|].
  now rewrite Bool.orb_true_r.
Qed.

(** C3.  When the three verdicts are all Invalid (the reference front end
    reports an error, the gc arm is that same error and its text matches no
    gc crash pattern, gccgo reports an error whose text matches neither the
    gccgo nor the sanitizer crash pattern), [Fuzz] returns 0: neither the
    crash panics nor the disagreement panic is reached. *)
Theorem all_invalid_skips (data : list byte) (goErr gccgoErr : error) :
  result (gotypes tc data) = Returned goErr ->
  result (gccgo tc data) = Returned gccgoErr ->
  ref_verdict goErr = Invalid ->
  gc_verdict goErr = Invalid ->
  gccgo_verdict gccgoErr = Invalid ->
  result (Fuzz tc data) = Returned 0%Z.
Proof.
  intros Hgo Hgccgo Href Hgc Hx.
  destruct (prefilter data) eqn:Hpre.
  { rewrite Fuzz_unfold, Hpre. reflexivity. }
  rewrite (Fuzz_classified _ Hpre Hgo Hgccgo). unfold result. cbn [snd].
  destruct goErr as [gm|]; [|discriminate Href].
  destruct gccgoErr as [xm|]; [|discriminate Hx].
  unfold gc_verdict, gccgo_verdict, verdict_of in Hgc, Hx.
  destruct (MatchString gcCrash gm) eqn:Egc; [discriminate Hgc|].
  destruct (MatchString gccgoCrash xm) eqn:Ex; [discriminate Hx|].
  destruct (MatchString asanCrash xm) eqn:Ea; [discriminate Hx|].
  unfold classify.
  destruct (known_divergence data (Some gm) (Some gm) (Some xm));
    [reflexivity|].
  unfold gc_crashed, gccgo_crashed, asan_crashed.
  cbn [notNil isNil negb andb Error]. rewrite Egc, Ex, Ea.
  reflexivity.
Qed.

(** C5.  First match wins: when a known-divergence predicate of lines
    51-174 matches and the arms also disagree on validity, [Fuzz] returns 0
    and prints nothing; the disagreement panic is not reached. *)
Theorem suppression_precedes_disagreement
        (data : list byte) (goErr gccgoErr : error) :
  result (gotypes tc data) = Returned goErr ->
  result (gccgo tc data) = Returned gccgoErr ->
  known_divergence data goErr goErr gccgoErr = true ->
  disagree goErr goErr gccgoErr = true ->
  result (Fuzz tc data) = Returned 0%Z /\
  calls (trace (Fuzz tc data)) = trace (Fuzz tc data).
Proof.
  intros Hgo Hgccgo Hknown _.
  destruct (prefilter data) eqn:Hpre.
  { rewrite Fuzz_unfold, Hpre. split; reflexivity. }
  rewrite (Fuzz_classified _ Hpre Hgo Hgccgo).
  unfold classify. rewrite Hknown. cbn [fst snd result trace].
  split; [reflexivity|].
  rewrite app_nil_r. unfold calls. rewrite filter_app.
  fold (calls (trace (gotypes tc data))). rewrite gotypes_calls.
  now rewrite gccgo_trace.
Qed.

(** C2.  When the arms do not all agree on validity and no pre-filter, no
    known-divergence predicate and no filed crash signature matches, [Fuzz]
    panics: it returns neither 0 nor 1.  Unless a crash pattern matched
    (then the panic is the crash panic, after the crashing arm's text), the
    panic is the disagreement panic, after the three verdicts were printed. *)
Theorem unexplained_disagreement_is_fatal
        (data : list byte) (goErr gccgoErr : error) :
  result (gotypes tc data) = Returned goErr ->
  result (gccgo tc data) = Returned gccgoErr ->
  disagree goErr goErr gccgoErr = true ->
  prefilter data = false ->
  known_divergence data goErr goErr gccgoErr = false ->
  crash_suppressed goErr gccgoErr = false ->
  panicked (result (Fuzz tc data)) = true /\
  (any_crashed goErr gccgoErr = false ->
   Fuzz tc data =
   (trace (gotypes tc data) ++ trace (gccgo tc data) ++
      [Print ("go/types result: " ++ fmt_v goErr ++ nl "");
       Print ("gc result: " ++ fmt_v goErr ++ nl "");
       Print ("gccgo result: " ++ fmt_v gccgoErr ++ nl "")],
    Panicked "gc, gccgo and go/types disagree")).
Proof.
  intros Hgo Hgccgo Hdis Hpre Hknown Hsup.
  rewrite (Fuzz_classified _ Hpre Hgo Hgccgo).
  unfold classify, crash_report, disagreement_report.
  rewrite Hknown, Hdis.
  unfold crash_suppressed, any_crashed in *.
  destruct (gc_crashed goErr), (gccgo_crashed gccgoErr),
    (asan_crashed gccgoErr), (gc_known (Error goErr)),
    (gccgo_known (Error gccgoErr)), (asan_known (Error gccgoErr));
    cbn in Hsup |- *; try discriminate Hsup; split; try reflexivity;
    intros; try discriminate; reflexivity.
Qed.

(** C1, as the source has it.  The crash blocks come after the
    pre-filters and after the known-divergence predicates: on a Crashed
    verdict of an external arm, a matching pre-filter or known-divergence
    predicate makes [Fuzz] return 0 whatever the crash text holds; only when
    none matches is the outcome the one of the crash blocks, where the first
    class whose pattern matches (gc, gccgo, sanitizer, in that order)
    decides: 0 when one of its filed signatures is in the text, a panic
    otherwise. *)
Theorem crash_check_follows_known_divergences
        (data : list byte) (goErr gccgoErr : error) :
  result (gotypes tc data) = Returned goErr ->
  result (gccgo tc data) = Returned gccgoErr ->
  gc_verdict goErr = Crashed \/ gccgo_verdict gccgoErr = Crashed ->
  result (Fuzz tc data) =
  if prefilter data || known_divergence data goErr goErr gccgoErr
  then Returned 0%Z
  else crash_disposition goErr gccgoErr.
Proof.
  intros Hgo Hgccgo Hcrash.
  destruct (prefilter data) eqn:Hpre.
  { rewrite Fuzz_unfold, Hpre. reflexivity. }
  rewrite (Fuzz_classified _ Hpre Hgo Hgccgo). cbn [orb result snd].
  unfold classify, crash_disposition.
  destruct (known_divergence data goErr goErr gccgoErr); [reflexivity|].
  rewrite gc_verdict_Crashed, gccgo_verdict_Crashed in Hcrash.
  destruct (gc_crashed goErr); [reflexivity|].
  destruct (gccgo_crashed gccgoErr); [reflexivity|].
  destruct (asan_crashed gccgoErr); [reflexivity|].
  destruct Hcrash; discriminate.
Qed.

(** C4, as the source has it.  Where the crash blocks are reached (no
    pre-filter and no known-divergence predicate matched), the filed
    signatures of the first crash class whose pattern matches decide: [Fuzz]
    returns 0 when the text holds one of them and panics when it holds none.
    The classes are tried in the order gc, gccgo, sanitizer, and the gc
    class reads the text of the reference front end. *)
Theorem crash_signatures_decide_where_reached
        (data : list byte) (goErr gccgoErr : error) :
  result (gotypes tc data) = Returned goErr ->
  result (gccgo tc data) = Returned gccgoErr ->
  prefilter data = false ->
  known_divergence data goErr goErr gccgoErr = false ->
  (gc_crashed goErr = true ->
   result (Fuzz tc data) =
   if gc_known (Error goErr) then Returned 0%Z
   else Panicked "gc compiler crashed") /\
  (gc_crashed goErr = false -> gccgo_crashed gccgoErr = true ->
   result (Fuzz tc data) =
   if gccgo_known (Error gccgoErr) then Returned 0%Z
   else Panicked "gccgo compiler crashed") /\
  (gc_crashed goErr = false -> gccgo_crashed gccgoErr = false ->
   asan_crashed gccgoErr = true ->
   result (Fuzz tc data) =
   if asan_known (Error gccgoErr) then Returned 0%Z
   else Panicked "gccgo compiler crashed").
Proof.
  intros Hgo Hgccgo Hpre Hknown.
  rewrite (Fuzz_classified _ Hpre Hgo Hgccgo). cbn [result snd].
  unfold classify, crash_report. rewrite Hknown.
  repeat split; intros.
  all: repeat match goal with H : _ = _ |- _ => rewrite H end.
  - now destruct (gc_known (Error goErr)).
  - now destruct (gccgo_known (Error gccgoErr)).
  - now destruct (asan_known (Error gccgoErr)).
Qed.

(** C6, as the source has it.  When every arm accepts the input, no
    pre-filter matches and neither [formatBug1] nor [formatBug2] matches,
    [Fuzz] calls the formatter once, on the input with every carriage return
    replaced by a space, and the formatter's answer is the outcome: 1 when
    it succeeds, a panic with its error when it fails. *)
Theorem agreed_valid_is_reformatted (data : list byte) :
  result (gotypes tc data) = Returned None ->
  result (gccgo tc data) = Returned None ->
  prefilter data = false ->
  formatBug data = false ->
  Fuzz tc data =
  (trace (gotypes tc data) ++ trace (gccgo tc data) ++
     [FormatSource (unCR data)],
   match snd (format_Source tc (unCR data)) with
   | None => Returned 1%Z
   | Some e => Panicked e
   end).
Proof.
  intros Hgo Hgccgo Hpre Hbug.
  rewrite (Fuzz_classified _ Hpre Hgo Hgccgo).
  unfold classify, reformat. rewrite known_divergence_alias.
  cbn. rewrite Hbug.
  now destruct (snd (format_Source tc (unCR data))).
Qed.

(** C7.  When the formatting pass of [Fuzz] fails (the formatter was
    called on [d] and answered the error [e]), [Fuzz] panics with that
    error: it returns neither 0 nor 1.  The pass runs only on an input that
    every arm accepted. *)
Theorem formatter_failure_is_fatal (data d : list byte) (e : string) :
  In (FormatSource d) (trace (Fuzz tc data)) ->
  snd (format_Source tc d) = Some e ->
  result (Fuzz tc data) = Panicked e /\
  result (gotypes tc data) = Returned None /\
  result (gccgo tc data) = Returned None.
Proof.
  intros Hin Hfail. rewrite Fuzz_unfold in Hin |- *.
  destruct (prefilter data); [destruct Hin|].
  pose proof (@gotypes_never_formats data d) as Hgo.
  pose proof (gccgo_trace data) as Hx.
  unfold trace, result in *.
  destruct (gotypes tc data) as [tg [goErr|m]]; cbn in Hgo;
    [|now cbn in Hin].
  destruct (gccgo tc data) as [tx [gccgoErr|m]]; cbn in Hx; subst tx.
  2:{ cbn in Hin. apply in_app_or in Hin.
      destruct Hin as [Hin | [Hin | []]]; [contradiction | discriminate]. }
  pose proof (@classify_formats data d goErr gccgoErr) as Hc.
  destruct (classify tc data goErr goErr gccgoErr) as [t o] eqn:Ec.
  cbn [fst snd] in *.
  apply in_app_or in Hin. destruct Hin as [Hin | Hin]; [contradiction|].
  cbn in Hin. destruct Hin as [Hin | Hin]; [discriminate|].
  destruct (Hc Hin) as (-> & -> & Hbug & ->).
  repeat split.
  unfold classify, reformat in Ec. rewrite known_divergence_alias in Ec.
  cbn in Ec. rewrite Hbug, Hfail in Ec. now inversion Ec.
Qed.

(** The two-way oracle is the decision of its blocks too. *)
Lemma Fuzz_two_way_unfold (data : list byte) :
  Fuzz_two_way tc data =
  if prefilter data then ([], Returned 0%Z)
  else
    match gotypes tc data with
    | (tg, Panicked m) => (tg, Panicked m)
    | (tg, Returned goErr) =>
        match gccgo tc data with
        | (tx, Panicked m) => (tg ++ tx, Panicked m)
        | (tx, Returned gccgoErr) =>
            let (t, o) := classify2 tc data goErr gccgoErr in
            (tg ++ tx ++ t, o)
        end
    end.
Proof.
  unfold Fuzz_two_way.
  repeat step.
  rewrite func_do.
  destruct (gotypes tc data) as [tg [goErr|m]]; [|reflexivity].
  rewrite func_do.
  destruct (gccgo tc data) as [tx [gccgoErr|m]]; [|reflexivity].
  match goal with
  | |- context [func ?b] =>
      enough (E : func b = classify2 tc data goErr gccgoErr)
  end.
  { rewrite E. destruct (classify2 tc data goErr gccgoErr).
    now rewrite app_assoc. }
  unfold classify2, crash_report, reformat.
  repeat step.
  destruct (format_Source tc (unCR data)) as [d1 [e|]]; reflexivity.
Qed.

Lemma classify_two_way (data : list byte) (goErr gccgoErr : error) :
  snd (classify tc data goErr goErr gccgoErr) =
  snd (classify2 tc data goErr gccgoErr) /\
  calls (fst (classify tc data goErr goErr gccgoErr)) =
  calls (fst (classify2 tc data goErr gccgoErr)).
Proof.
  unfold classify, classify2, crash_report, disagreement_report.
  rewrite known_divergence_alias, disagree_alias.
  repeat match goal with
         | |- context [if ?c then _ else _] => destruct c
         end; split; reflexivity.
Qed.

(** C9.  With the gc arm an alias of the reference verdict, [Fuzz] is the
    two-way oracle: on every input both end alike (same return value, same
    panic) after the same calls.  For every pair of verdicts the test
    (goErr == nil) != (gcErr == nil) is false, no rule of lines 51-77
    matches, and the disagreement test is the one between go/types and
    gccgo. *)
Theorem gc_alias_leaves_two_arms (data : list byte) :
  result (Fuzz tc data) = result (Fuzz_two_way tc data) /\
  calls (trace (Fuzz tc data)) = calls (trace (Fuzz_two_way tc data)) /\
  (forall goErr gccgoErr : error,
      let gcErr := goErr in
      negb (Bool.eqb (isNil goErr) (isNil gcErr)) = false /\
      gc_divergence goErr gcErr = false /\
      disagree goErr gcErr gccgoErr =
      negb (Bool.eqb (isNil goErr) (isNil gccgoErr))).
Proof.
  split; [|split].
  3:{ intros goErr gccgoErr gcErr. subst gcErr.
      rewrite Bool.eqb_reflx, gc_divergence_alias, disagree_alias.
      now repeat split. }
  all: rewrite Fuzz_unfold, Fuzz_two_way_unfold.
  all: destruct (prefilter data); [reflexivity|].
  all: destruct (gotypes tc data) as [tg [goErr|m]]; [|reflexivity].
  all: destruct (gccgo tc data) as [tx [gccgoErr|m]]; [|reflexivity].
  all: destruct (classify_two_way data goErr gccgoErr) as [Hr Hc].
  all: destruct (classify tc data goErr goErr gccgoErr) as [t o].
  all: destruct (classify2 tc data goErr gccgoErr) as [t2 o2].
  all: cbn [fst snd result trace] in *.
  - assumption.
  - unfold calls in *. rewrite !filter_app. now rewrite Hc.
Qed.

(** What line 296 does to the bytes. *)
Lemma unCR_map (data : list byte) :
  unCR data = map (fun b => if Byte.eqb b CR then SP else b) data.
Proof.
  unfold unCR, bytes_Replace. cbn [Z.ltb Z.compare].
  induction data as [|c data IH]; [reflexivity|].
  cbn [Replace_from HasPrefix map List.length Nat.sub option_map andb].
  destruct (Byte.eqb c CR); cbn [app andb]; now rewrite IH.
Qed.

Lemma unCR_has_no_CR (data : list byte) : ~ In CR (unCR data).
Proof.
  rewrite unCR_map. induction data as [|c data IH]; cbn; [tauto|].
  intros [H | H]; [|tauto].
  destruct (Byte.eqb c CR) eqn:E; [discriminate H|].
  subst c. discriminate E.
Qed.

(** C10.  On an input that every arm accepts and no pre-filter matches:
    when neither [formatBug1] nor [formatBug2] matches, the one call to the
    formatter is on the input with every byte 0x0D turned into a space, so
    an input that holds a carriage return is itself never given to the
    formatter; when one of them matches, [Fuzz] returns 1 and the formatter
    is not called. *)
Theorem formatter_input_has_spaces_for_CR (data : list byte) :
  result (gotypes tc data) = Returned None ->
  result (gccgo tc data) = Returned None ->
  prefilter data = false ->
  (formatBug data = false ->
   trace (Fuzz tc data) =
   trace (gotypes tc data) ++ trace (gccgo tc data) ++
     [FormatSource (map (fun b => if Byte.eqb b CR then SP else b) data)] /\
   (In CR data -> ~ In (FormatSource data) (trace (Fuzz tc data)))) /\
  (formatBug data = true ->
   Fuzz tc data =
   (trace (gotypes tc data) ++ trace (gccgo tc data), Returned 1%Z) /\
   forall d, ~ In (FormatSource d) (trace (Fuzz tc data))).
Proof.
  intros Hgo Hgccgo Hpre.
  rewrite (Fuzz_classified _ Hpre Hgo Hgccgo).
  unfold classify, reformat. rewrite known_divergence_alias.
  cbn [known_divergence2 isNil notNil negb andb orb gc_crashed gccgo_crashed
       asan_crashed disagree Bool.eqb].
  split; intros Hbug; rewrite Hbug.
  - assert (Ht : fst (match snd (format_Source tc (unCR data)) with
                      | Some e => ([FormatSource (unCR data)], Panicked e)
                      | None => ([FormatSource (unCR data)], Returned 1%Z)
                      end) = [FormatSource (unCR data)])
      by now destruct (snd (format_Source tc (unCR data))).
    cbn [trace fst]. rewrite Ht, <- unCR_map. split; [reflexivity|].
    intros HCR Hin.
    apply in_app_or in Hin. destruct Hin as [Hin | Hin].
    { now apply gotypes_never_formats in Hin. }
    rewrite gccgo_trace in Hin. cbn in Hin.
    destruct Hin as [Hin | [Hin | []]]; [discriminate|].
    injection Hin as Hin. apply (@unCR_has_no_CR data). now rewrite Hin.
  - cbn [fst snd trace]. rewrite app_nil_r. split; [reflexivity|].
    intros d Hin. apply in_app_or in Hin. destruct Hin as [Hin | Hin].
    { now apply gotypes_never_formats in Hin. }
    rewrite gccgo_trace in Hin. cbn in Hin.
    destruct Hin as [Hin | []]. discriminate.
Qed.

End Decision.

(** ** Runs of the oracle *)

Ltac run := vm_compute; reflexivity.

(** C8 at a source with a long exponent: nothing is called. *)
Lemma prefilter_skips_witness :
  (Match bigNum src_bigNum = true \/ Match issue11531 src_bigNum = true) /\
  Fuzz tc_valid src_bigNum = ([], Returned 0%Z).
Proof.
  assert (H : Match bigNum src_bigNum = true \/
              Match issue11531 src_bigNum = true) by (left; run).
  split; [exact H|].
  exact (prefilter_skips_before_any_call tc_valid src_bigNum H).
Defined.

(** C3 at a source both arms reject. *)
Lemma all_invalid_skips_witness :
  ref_verdict err_undeclared = Invalid /\
  gc_verdict err_undeclared = Invalid /\
  gccgo_verdict (go1_error out_undefined) = Invalid /\
  result (Fuzz tc_both_reject src_p) = Returned 0%Z.
Proof.
  assert (H1 : ref_verdict err_undeclared = Invalid) by run.
  assert (H2 : gc_verdict err_undeclared = Invalid) by run.
  assert (H3 : gccgo_verdict (go1_error out_undefined) = Invalid) by run.
  refine (conj H1 (conj H2 (conj H3 _))).
  exact (@all_invalid_skips tc_both_reject src_p err_undeclared
           (go1_error out_undefined) eq_refl eq_refl H1 H2 H3).
Defined.

(** C5 at the filed overflow message. *)
Lemma suppression_precedes_disagreement_witness :
  known_divergence src_p None None (go1_error out_overflow) = true /\
  disagree None None (go1_error out_overflow) = true /\
  result (Fuzz tc_overflow src_p) = Returned 0%Z /\
  calls (trace (Fuzz tc_overflow src_p)) = trace (Fuzz tc_overflow src_p).
Proof.
  assert (H1 : known_divergence src_p None None (go1_error out_overflow)
               = true) by run.
  assert (H2 : disagree None None (go1_error out_overflow) = true) by run.
  refine (conj H1 (conj H2 _)).
  exact (@suppression_precedes_disagreement tc_overflow src_p None
           (go1_error out_overflow) eq_refl eq_refl H1 H2).
Defined.

(** C2 at a message nobody filed. *)
Lemma unexplained_disagreement_witness :
  disagree None None (go1_error out_semicolon) = true /\
  prefilter src_p = false /\
  known_divergence src_p None None (go1_error out_semicolon) = false /\
  crash_suppressed None (go1_error out_semicolon) = false /\
  panicked (result (Fuzz tc_new_divergence src_p)) = true /\
  Fuzz tc_new_divergence src_p =
  (trace (gotypes tc_new_divergence src_p) ++
   trace (gccgo tc_new_divergence src_p) ++
     [Print ("go/types result: " ++ fmt_v None ++ nl "");
      Print ("gc result: " ++ fmt_v None ++ nl "");
      Print ("gccgo result: " ++ fmt_v (go1_error out_semicolon) ++ nl "")],
   Panicked "gc, gccgo and go/types disagree").
Proof.
  assert (H1 : disagree None None (go1_error out_semicolon) = true) by run.
  assert (H2 : prefilter src_p = false) by run.
  assert (H3 : known_divergence src_p None None (go1_error out_semicolon)
               = false) by run.
  assert (H4 : crash_suppressed None (go1_error out_semicolon) = false)
    by run.
  assert (H5 : any_crashed None (go1_error out_semicolon) = false) by run.
  pose proof (@unexplained_disagreement_is_fatal tc_new_divergence src_p
                None (go1_error out_semicolon) eq_refl eq_refl H1 H2 H3 H4)
    as H.
  exact (conj H1 (conj H2 (conj H3 (conj H4
           (conj (proj1 H) (proj2 H H5)))))).
Defined.

(** C1 as stated fails: gccgo's verdict is Crashed, its text holds no filed
    crash signature of any class, and [Fuzz] returns 0, because the filed
    message of line 139 is tested first. *)
Lemma crash_first_counterexample :
  result (gccgo tc_crash_after_overflow src_p) =
    Returned (go1_error out_crash_after_overflow) /\
  gccgo_verdict (go1_error out_crash_after_overflow) = Crashed /\
  gccgo_known (Error (go1_error out_crash_after_overflow)) = false /\
  asan_known (Error (go1_error out_crash_after_overflow)) = false /\
  prefilter src_p = false /\
  result (Fuzz tc_crash_after_overflow src_p) = Returned 0%Z.
Proof. repeat split; run. Qed.

(** C1 as amended, at a crash nobody filed and no known divergence. *)
Lemma crash_check_witness :
  (gc_verdict None = Crashed \/
   gccgo_verdict (go1_error out_new_crash) = Crashed) /\
  result (Fuzz tc_new_crash src_p) =
  (if prefilter src_p ||
      known_divergence src_p None None (go1_error out_new_crash)
   then Returned 0%Z
   else crash_disposition None (go1_error out_new_crash)).
Proof.
  assert (H : gc_verdict None = Crashed \/
              gccgo_verdict (go1_error out_new_crash) = Crashed)
    by (right; run).
  split; [exact H|].
  exact (@crash_check_follows_known_divergences tc_new_crash src_p None
           (go1_error out_new_crash) eq_refl eq_refl H).
Defined.

(** C4 as stated fails twice.  A text that matches [gccgoCrash] and holds
    no filed signature gives 0 when the source has a comment over two lines
    (line 171 is tested first); a text that matches [asanCrash] and holds
    the filed sanitizer signature gives a panic when it also matches
    [gccgoCrash] without a filed gccgo signature. *)
Lemma crash_matching_counterexample :
  (result (gccgo tc_new_crash src_comment) =
     Returned (go1_error out_new_crash) /\
   MatchString gccgoCrash (Error (go1_error out_new_crash)) = true /\
   gccgo_known (Error (go1_error out_new_crash)) = false /\
   prefilter src_comment = false /\
   result (Fuzz tc_new_crash src_comment) = Returned 0%Z) /\
  (result (gccgo tc_crash_and_asan src_p) =
     Returned (go1_error out_crash_and_asan) /\
   MatchString asanCrash (Error (go1_error out_crash_and_asan)) = true /\
   asan_known (Error (go1_error out_crash_and_asan)) = true /\
   result (Fuzz tc_crash_and_asan src_p) =
   Panicked "gccgo compiler crashed").
Proof. repeat split; run. Qed.

(** C4 as amended, at a crash nobody filed. *)
Lemma crash_signatures_witness :
  prefilter src_p = false /\
  known_divergence src_p None None (go1_error out_new_crash) = false /\
  gccgo_crashed (go1_error out_new_crash) = true /\
  result (Fuzz tc_new_crash src_p) = Panicked "gccgo compiler crashed".
Proof.
  assert (H1 : prefilter src_p = false) by run.
  assert (H2 : known_divergence src_p None None (go1_error out_new_crash)
               = false) by run.
  assert (H3 : gccgo_crashed (go1_error out_new_crash) = true) by run.
  refine (conj H1 (conj H2 (conj H3 _))).
  exact (proj1 (proj2 (@crash_signatures_decide_where_reached tc_new_crash
                         src_p None (go1_error out_new_crash)
                         eq_refl eq_refl H1 H2))
           eq_refl H3).
Defined.

(** C6 as stated fails: every arm accepts the source, no pre-filter and no
    suppression matches, and the formatter is never called on the source;
    it fails on it, yet [Fuzz] returns 1, the formatter's answer for the
    bytes without the carriage return. *)
Lemma reformat_on_input_counterexample :
  result (gotypes tc_valid_no_CR src_CRLF) = Returned None /\
  result (gccgo tc_valid_no_CR src_CRLF) = Returned None /\
  prefilter src_CRLF = false /\
  formatBug src_CRLF = false /\
  snd (format_Source tc_valid_no_CR src_CRLF) =
    Some "1:1: illegal character" /\
  ~ In (FormatSource src_CRLF) (trace (Fuzz tc_valid_no_CR src_CRLF)) /\
  result (Fuzz tc_valid_no_CR src_CRLF) = Returned 1%Z.
Proof.
  repeat split; try run.
  intros H. vm_compute in H.
  repeat (destruct H as [H | H]; [discriminate H|]). exact H.
Qed.

(** C6 as amended, at the same source with a formatter that succeeds. *)
Lemma agreed_valid_witness :
  prefilter src_CRLF = false /\
  formatBug src_CRLF = false /\
  Fuzz tc_valid src_CRLF =
  (trace (gotypes tc_valid src_CRLF) ++ trace (gccgo tc_valid src_CRLF) ++
     [FormatSource (unCR src_CRLF)],
   Returned 1%Z).
Proof.
  assert (H1 : prefilter src_CRLF = false) by run.
  assert (H2 : formatBug src_CRLF = false) by run.
  refine (conj H1 (conj H2 _)).
  exact (@agreed_valid_is_reformatted tc_valid src_CRLF
           eq_refl eq_refl H1 H2).
Defined.

(** C7 at a formatter that fails. *)
Lemma formatter_failure_witness :
  In (FormatSource src_p) (trace (Fuzz tc_fmt_fails src_p)) /\
  snd (format_Source tc_fmt_fails src_p) = Some "1:1: expected declaration" /\
  result (Fuzz tc_fmt_fails src_p) = Panicked "1:1: expected declaration".
Proof.
  assert (H1 : In (FormatSource src_p) (trace (Fuzz tc_fmt_fails src_p))).
  { vm_compute. do 4 right. left. reflexivity. }
  refine (conj H1 (conj eq_refl _)).
  exact (proj1 (@formatter_failure_is_fatal tc_fmt_fails src_p src_p
                  "1:1: expected declaration" H1 eq_refl)).
Defined.

(** C10 at a source with a carriage return. *)
Lemma formatter_input_witness :
  prefilter src_CRLF = false /\
  formatBug src_CRLF = false /\
  trace (Fuzz tc_valid src_CRLF) =
  trace (gotypes tc_valid src_CRLF) ++ trace (gccgo tc_valid src_CRLF) ++
    [FormatSource (bytes "package p " ++ [LF])].
Proof.
  assert (H1 : prefilter src_CRLF = false) by run.
  assert (H2 : formatBug src_CRLF = false) by run.
  refine (conj H1 (conj H2 _)).
  exact (proj1 (proj1 (@formatter_input_has_spaces_for_CR tc_valid src_CRLF
                         eq_refl eq_refl H1) H2)).
Defined.

(** ** What else the oracle guarantees *)

Section Outcomes.

Variable tc : toolchain.

(** The ways [classify] can end. *)
Ltac classify_cases :=
  unfold classify, crash_report, disagreement_report, reformat;
  repeat match goal with
         | |- context [if ?c then _ else _] => destruct c eqn:?
         | |- context [match ?c with Some _ => _ | None => _ end] =>
             destruct c eqn:?
         end; cbn [fst snd].

(** When the arms agree, [disagree] is false for the alias. *)
Lemma agree_nil (goErr gccgoErr : error) :
  disagree goErr goErr gccgoErr = false -> notNil goErr = false ->
  goErr = None /\ gccgoErr = None.
Proof.
  rewrite disagree_alias. destruct goErr, gccgoErr; cbn; intros; try discriminate.
  now split.
Qed.

(** X1.  Whenever [Fuzz] returns, it returns 0 or 1. *)
Theorem Fuzz_returns_0_or_1 (data : list byte) (v : Z) :
  result (Fuzz tc data) = Returned v -> v = 0%Z \/ v = 1%Z.
Proof.
  rewrite Fuzz_unfold. unfold result.
  destruct (prefilter data); [cbn; intros [= <-]; now left|].
  destruct (gotypes tc data) as [tg [goErr|m]]; [|discriminate].
  destruct (gccgo tc data) as [tx [gccgoErr|m]]; [|discriminate].
  destruct (classify tc data goErr goErr gccgoErr) as [t o] eqn:E.
  cbn [snd]. intros ->.
  assert (H : snd (classify tc data goErr goErr gccgoErr) = Returned v)
    by now rewrite E.
  revert H. clear E. classify_cases; intros [= <-]; auto.
Qed.

(** X2.  [Fuzz] returns 1 only on an input that no pre-filter matches and
    that the reference front end and gccgo both accept; and then either a
    [formatBug] pattern matches or the formatter succeeded on the input
    without its carriage returns. *)
Theorem Fuzz_pass_needs_agreement (data : list byte) :
  result (Fuzz tc data) = Returned 1%Z ->
  prefilter data = false /\
  result (gotypes tc data) = Returned None /\
  result (gccgo tc data) = Returned None /\
  (formatBug data = true \/ snd (format_Source tc (unCR data)) = None).
Proof.
  rewrite Fuzz_unfold. unfold result.
  destruct (prefilter data); [discriminate|].
  destruct (gotypes tc data) as [tg [goErr|m]]; [|discriminate].
  destruct (gccgo tc data) as [tx [gccgoErr|m]]; [|discriminate].
  destruct (classify tc data goErr goErr gccgoErr) as [t o] eqn:E.
  cbn [snd]. intros ->.
  assert (H : snd (classify tc data goErr goErr gccgoErr) = Returned 1%Z)
    by now rewrite E.
  revert H. clear E. classify_cases; intros [= ]; try discriminate.
  all: match goal with
       | Hd : disagree _ _ _ = false, Hn : notNil _ = false |- _ =>
           destruct (agree_nil _ _ Hd Hn) as [-> ->]
       end; auto.
Qed.

(** X3.  [Fuzz] prints only on its way to a panic: a run that holds a
    printed line ends in a panic, and a run that returns printed nothing. *)
Theorem Fuzz_prints_only_before_panic (data : list byte) :
  (forall out, In (Print out) (trace (Fuzz tc data)) ->
               panicked (result (Fuzz tc data)) = true) /\
  (forall v, result (Fuzz tc data) = Returned v ->
             calls (trace (Fuzz tc data)) = trace (Fuzz tc data)).
Proof.
  assert (Hg : forall out, ~ In (Print out) (trace (gotypes tc data))).
  { intros out Hin. pose proof (gotypes_trace tc data) as H.
    rewrite Forall_forall in H. apply H in Hin.
    now destruct Hin as [E | [E | [E | E]]]. }
  pose proof (gotypes_calls tc data) as Hgc.
  pose proof (gccgo_trace tc data) as Hx.
  rewrite Fuzz_unfold. unfold result, trace in *.
  destruct (prefilter data); [split; [intros ? []|reflexivity]|].
  destruct (gotypes tc data) as [tg [goErr|m]]; cbn [fst snd] in *;
    [|split; [reflexivity | discriminate]].
  destruct (gccgo tc data) as [tx [gccgoErr|m]]; cbn [fst snd] in *;
    subst tx; [|split; [reflexivity | discriminate]].
  assert (Hc : (forall out,
                   In (Print out) (fst (classify tc data goErr goErr gccgoErr)) ->
                   panicked (snd (classify tc data goErr goErr gccgoErr)) = true)
               /\ (forall v,
                     snd (classify tc data goErr goErr gccgoErr) = Returned v ->
                     calls (fst (classify tc data goErr goErr gccgoErr)) =
                     fst (classify tc data goErr goErr gccgoErr))).
  { classify_cases; split; try reflexivity; try discriminate;
      cbn; intros; repeat match goal with
                          | H : _ \/ _ |- _ => destruct H
                          | H : False |- _ => destruct H
                          end; try discriminate; reflexivity. }
  destruct (classify tc data goErr goErr gccgoErr) as [t o].
  cbn [fst snd] in *. destruct Hc as [Hc1 Hc2]. split.
  - intros out Hin. apply in_app_or in Hin. destruct Hin as [Hin | Hin].
    { now apply Hg in Hin. }
    cbn in Hin. destruct Hin as [Hin | Hin]; [discriminate|].
    now apply (Hc1 out).
  - intros v Hv. unfold calls in *. rewrite filter_app, Hgc. cbn.
    now rewrite (Hc2 v Hv).
Qed.

(** X4.  Every panic of [Fuzz] has one of five causes: the reference front
    end panicked; a gc crash pattern matched the reference text without a
    filed gc signature; a gccgo or sanitizer crash pattern matched gccgo's
    text without a filed signature of that class; the two arms answered
    differently; or both accepted and the formatter failed on the input
    without its carriage returns. *)
Theorem Fuzz_panic_causes (data : list byte) (m : string) :
  result (Fuzz tc data) = Panicked m ->
  result (gotypes tc data) = Panicked m \/
  exists goErr gccgoErr,
    result (gotypes tc data) = Returned goErr /\
    result (gccgo tc data) = Returned gccgoErr /\
    ((m = "gc compiler crashed" /\
      gc_crashed goErr = true /\ gc_known (Error goErr) = false) \/
     (m = "gccgo compiler crashed" /\
      ((gccgo_crashed gccgoErr = true /\
        gccgo_known (Error gccgoErr) = false) \/
       (asan_crashed gccgoErr = true /\
        asan_known (Error gccgoErr) = false))) \/
     (m = "gc, gccgo and go/types disagree" /\
      isNil goErr <> isNil gccgoErr) \/
     (goErr = None /\ gccgoErr = None /\
      snd (format_Source tc (unCR data)) = Some m)).
Proof.
  rewrite Fuzz_unfold. unfold result.
  destruct (prefilter data); [discriminate|].
  destruct (gotypes tc data) as [tg [goErr|m']]; [|cbn; intros [= ->]; now left].
  pose proof (gccgo_eq tc data) as Ex.
  destruct (gccgo tc data) as [tx [gccgoErr|m']]; [clear Ex|discriminate Ex].
  destruct (classify tc data goErr goErr gccgoErr) as [t o] eqn:E.
  cbn [snd]. intros ->. right. exists goErr, gccgoErr.
  split; [reflexivity|]. split; [reflexivity|].
  assert (H : snd (classify tc data goErr goErr gccgoErr) = Panicked m)
    by now rewrite E.
  revert H. clear E. classify_cases; intros [= <-]; auto 10.
  - right. right. left. split; [reflexivity|].
    rewrite disagree_alias in *.
    destruct goErr, gccgoErr; cbn in *; congruence.
  - match goal with
    | Hd : disagree _ _ _ = false, Hn : notNil _ = false |- _ =>
        destruct (agree_nil _ _ Hd Hn) as [-> ->]
    end. auto 10.
Qed.

(** X5.  The calls of a run of [Fuzz] are, in order: none; or those of the
    reference front end; or those and one run of [go1] on the input; or
    those, the run of [go1], and one call of the formatter on the input
    without its carriage returns.  So no other program than [go1] is run,
    and on no other bytes than the input. *)
Theorem Fuzz_calls_shape (data : list byte) :
  (calls (trace (Fuzz tc data)) = [] \/
   calls (trace (Fuzz tc data)) = trace (gotypes tc data) \/
   calls (trace (Fuzz tc data)) = trace (gotypes tc data) ++ go1_call data \/
   calls (trace (Fuzz tc data)) =
     trace (gotypes tc data) ++ go1_call data ++ [FormatSource (unCR data)])
  /\
  (forall name stdin, In (Exec name stdin) (trace (Fuzz tc data)) ->
                      name = "go1" /\ stdin = data).
Proof.
  assert (Hshape :
    calls (trace (Fuzz tc data)) = [] \/
    calls (trace (Fuzz tc data)) = trace (gotypes tc data) \/
    calls (trace (Fuzz tc data)) = trace (gotypes tc data) ++ go1_call data \/
    calls (trace (Fuzz tc data)) =
      trace (gotypes tc data) ++ go1_call data ++ [FormatSource (unCR data)]).
  { pose proof (gotypes_calls tc data) as Hgc.
    pose proof (gccgo_trace tc data) as Hx.
    rewrite Fuzz_unfold. unfold trace, go1_call in *.
    destruct (prefilter data); [now left|].
    destruct (gotypes tc data) as [tg [goErr|m]]; cbn [fst] in *;
      [|right; left; exact Hgc].
    destruct (gccgo tc data) as [tx [gccgoErr|m]]; cbn [fst] in *; subst tx.
    2:{ right. right. left. unfold calls in *. now rewrite filter_app, Hgc. }
    assert (Hc : calls (fst (classify tc data goErr goErr gccgoErr)) = [] \/
                 calls (fst (classify tc data goErr goErr gccgoErr)) =
                 [FormatSource (unCR data)])
      by (classify_cases; auto).
    destruct (classify tc data goErr goErr gccgoErr) as [t o].
    cbn [fst] in *. unfold calls in *.
    rewrite !filter_app, Hgc. cbn [filter is_call].
    destruct Hc as [-> | ->]; [right; right; left | right; right; right];
      reflexivity. }
  split; [exact Hshape|].
  intros name stdin Hin.
  assert (Hc : In (Exec name stdin) (calls (trace (Fuzz tc data)))).
  { unfold calls. apply filter_In. now split. }
  assert (Hg : ~ In (Exec name stdin) (trace (gotypes tc data))).
  { intros H. pose proof (gotypes_trace tc data) as HF.
    rewrite Forall_forall in HF. apply HF in H.
    now destruct H as [E | [E | [E | E]]]. }
  unfold go1_call in Hshape.
  destruct Hshape as [E | [E | [E | E]]]; rewrite E in Hc.
  - destruct Hc.
  - contradiction.
  - apply in_app_or in Hc. destruct Hc as [Hc | [Hc | []]]; [contradiction|].
    injection Hc as <- <-. now split.
  - apply in_app_or in Hc.
    destruct Hc as [Hc | [Hc | [Hc | []]]]; [contradiction| |discriminate].
    injection Hc as <- <-. now split.
Qed.

(** X6.  An input that holds a dot anywhere is pre-filtered: [Fuzz] returns
    0 and calls nothing, because the alternation of [bigNum] makes a lone
    dot a match. *)
Theorem Fuzz_skips_any_dot (data : list byte) :
  In "."%byte data -> Fuzz tc data = ([], Returned 0%Z).
Proof.
  intros H. rewrite Fuzz_unfold. unfold prefilter.
  now rewrite (bigNum_matches_any_dot data H).
Qed.

End Outcomes.

(** X7.  A known-divergence rule matches only when two arms answer
    differently: on verdicts that all agree on validity no rule of lines
    51-174 can return 0. *)
Theorem known_divergence_needs_disagreement
        (data : list byte) (goErr gcErr gccgoErr : error) :
  known_divergence data goErr gcErr gccgoErr = true ->
  disagree goErr gcErr gccgoErr = true.
Proof.
  unfold known_divergence, gc_divergence, disagree.
  destruct goErr, gcErr, gccgoErr; cbn [isNil notNil negb andb orb Bool.eqb];
    intros H; try reflexivity; discriminate H.
Qed.

(** ** The reference front end and gccgo *)

Section Arms.

Variable tc : toolchain.

(** The loop writes the packages in order and stops at the first failure,
    with a panic. *)
Lemma write_all_cases (pkgs : list (ssa_Package tc)) :
  (writes_ok tc pkgs /\
   write_all tc pkgs = (repeat WriteTo (List.length pkgs), Next tt)) \/
  (exists pkgs1 pkg pkgs2 m,
      pkgs = pkgs1 ++ pkg :: pkgs2 /\ writes_ok tc pkgs1 /\
      ssa_WriteTo tc pkg = Some m /\
      write_all tc pkgs = (repeat WriteTo (S (List.length pkgs1)), Panic m)).
Proof.
  unfold write_all, writes_ok.
  induction pkgs as [|pkg pkgs IH]; [left; split; [constructor|reflexivity]|].
  cbn [for_range]. destruct (ssa_WriteTo tc pkg) as [m|] eqn:Ew.
  - right. exists [], pkg, pkgs, m. cbn.
    split; [reflexivity|]. split; [constructor|]. split; [exact Ew|].
    reflexivity.
  - destruct IH as [[Hok E] | (pkgs1 & p & pkgs2 & m & -> & Hok & Ep & E)].
    + left. split; [now constructor|]. rewrite E. reflexivity.
    + right. exists (pkg :: pkgs1), p, pkgs2, m.
      split; [reflexivity|]. split; [now constructor|]. split; [exact Ep|].
      rewrite E. reflexivity.
Qed.

(** [gotypes], stage by stage. *)
Lemma gotypes_eq (data : list byte) :
  gotypes tc data =
  match parser_ParseFile tc data with
  | (f, Some e) => ([ParseFile data], Returned (Some e))
  | (f, None) =>
      match types_Check tc f with
      | Some e => ([ParseFile data; TypesCheck], Returned (Some e))
      | None =>
          match write_all tc (ssa_AllPackages tc data) with
          | (t, Next _) =>
              (ParseFile data :: TypesCheck :: BuildAll :: t, Returned None)
          | (t, Return r) =>
              (ParseFile data :: TypesCheck :: BuildAll :: t, Returned r)
          | (t, Panic m) =>
              (ParseFile data :: TypesCheck :: BuildAll :: t, Panicked m)
          end
      end
  end.
Proof.
  unfold gotypes. fold (write_all tc (ssa_AllPackages tc data)).
  generalize (write_all tc (ssa_AllPackages tc data)). intros W.
  destruct (parser_ParseFile tc data) as [f [e|]]; cbn; [reflexivity|].
  destruct (types_Check tc f) as [e|]; cbn; [reflexivity|].
  destruct W as [t [[]|r|m]]; cbn; rewrite ?app_nil_r; reflexivity.
Qed.

(** X8.  An error [gotypes] returns is the parser's, or else (the parser
    having succeeded) the checker's; in both cases the SSA form was not
    built: the run stops at the stage that failed. *)
Theorem gotypes_error_origin (data : list byte) (e : string) :
  result (gotypes tc data) = Returned (Some e) ->
  (snd (parser_ParseFile tc data) = Some e /\
   trace (gotypes tc data) = [ParseFile data]) \/
  (snd (parser_ParseFile tc data) = None /\
   types_Check tc (fst (parser_ParseFile tc data)) = Some e /\
   trace (gotypes tc data) = [ParseFile data; TypesCheck]).
Proof.
  rewrite gotypes_eq. unfold result, trace.
  destruct (parser_ParseFile tc data) as [f [e'|]]; cbn [fst snd].
  { intros [= ->]. now left. }
  destruct (types_Check tc f) as [e'|] eqn:Ec; cbn [fst snd].
  { intros [= ->]. right. now repeat split. }
  destruct (write_all_cases (ssa_AllPackages tc data))
    as [[_ E] | (p1 & p & p2 & m & _ & _ & _ & E)]; rewrite E; discriminate.
Qed.

(** X9.  [gotypes] returns nil exactly when the parser and the checker
    succeed and every package of the SSA program is written without an
    error. *)
Theorem gotypes_accepts_iff (data : list byte) :
  result (gotypes tc data) = Returned None <->
  snd (parser_ParseFile tc data) = None /\
  types_Check tc (fst (parser_ParseFile tc data)) = None /\
  writes_ok tc (ssa_AllPackages tc data).
Proof.
  rewrite gotypes_eq. unfold result.
  destruct (parser_ParseFile tc data) as [f [e'|]]; cbn [fst snd].
  { split; [discriminate | intros [H _]; discriminate H]. }
  destruct (types_Check tc f) as [e'|] eqn:Ec; cbn [fst snd].
  { split; [discriminate | intros (_ & H & _); discriminate H]. }
  destruct (write_all_cases (ssa_AllPackages tc data))
    as [[Hok E] | (p1 & p & p2 & m & Ep & Hok & Em & E)]; rewrite E;
    cbn [snd].
  - split; [now repeat split | reflexivity].
  - split; [discriminate|]. intros (_ & _ & H). exfalso.
    unfold writes_ok in H. rewrite Ep, Forall_app in H.
    destruct H as [_ H]. inversion H; congruence.
Qed.

(** The first element of a list that fails a test is found once. *)
Lemma first_failure_unique {A} (ok : A -> Prop) (l1 l2 l1' l2' : list A)
      (x x' : A) :
  l1 ++ x :: l2 = l1' ++ x' :: l2' ->
  Forall ok l1 -> Forall ok l1' -> ~ ok x -> ~ ok x' ->
  l1 = l1' /\ x = x'.
Proof.
  revert l1'. induction l1 as [|a l1 IH]; intros [|a' l1'] E H1 H1' Hx Hx';
    cbn in E.
  - injection E as -> _. now split.
  - injection E as -> _. inversion H1'; contradiction.
  - injection E as -> _. inversion H1; contradiction.
  - injection E as -> E. inversion H1; inversion H1'; subst.
    destruct (IH l1' E) as [-> ->]; auto.
Qed.

(** X10.  After a successful parse and check, [gotypes] writes the packages
    in order and panics at the first one that cannot be written, with that
    package's error; the packages after it are not written. *)
Theorem gotypes_panics_at_first_failure
        (data : list byte) (pkgs1 pkgs2 : list (ssa_Package tc))
        (pkg : ssa_Package tc) (m : string) :
  snd (parser_ParseFile tc data) = None ->
  types_Check tc (fst (parser_ParseFile tc data)) = None ->
  ssa_AllPackages tc data = pkgs1 ++ pkg :: pkgs2 ->
  writes_ok tc pkgs1 ->
  ssa_WriteTo tc pkg = Some m ->
  gotypes tc data =
  ([ParseFile data; TypesCheck; BuildAll] ++
     repeat WriteTo (S (List.length pkgs1)),
   Panicked m).
Proof.
  intros Hp Hc Hpk Hok Hm. rewrite gotypes_eq.
  destruct (parser_ParseFile tc data) as [f [e'|]]; cbn [fst snd] in *;
    [discriminate Hp|].
  rewrite Hc.
  destruct (write_all_cases (ssa_AllPackages tc data))
    as [[Hall E] | (p1 & p & p2 & m' & Ep & Hok' & Em & E)]; rewrite E.
  - exfalso. unfold writes_ok in Hall. rewrite Hpk, Forall_app in Hall.
    destruct Hall as [_ H]. inversion H; congruence.
  - rewrite Hpk in Ep.
    destruct (@first_failure_unique _ (fun q => ssa_WriteTo tc q = None)
                _ _ _ _ _ _ Ep Hok Hok') as [-> ->];
      [congruence | congruence |].
    rewrite Hm in Em. now injection Em as <-.
Qed.


(** The bytes of a concatenation. *)
Lemma bytes_app (a b : string) : bytes (a ++ b) = bytes a ++ bytes b.
Proof.
  unfold bytes, list_byte_of_string.
  induction a as [|c a IH]; [reflexivity|].
  change (String c a ++ b)%string with (String c (a ++ b)%string).
  cbn [list_ascii_of_string map app]. now rewrite IH.
Qed.

Lemma strings_Contains_app_l (a b sub : string) :
  strings_Contains a sub = true -> strings_Contains (a ++ b) sub = true.
Proof.
  unfold strings_Contains. rewrite bytes_app, !bytes_Contains_spec.
  intros (pre & post & ->). exists pre, (post ++ bytes b).
  now rewrite <- !app_assoc.
Qed.

Lemma strings_Contains_app_r (a b sub : string) :
  strings_Contains b sub = true -> strings_Contains (a ++ b) sub = true.
Proof.
  unfold strings_Contains. rewrite bytes_app, !bytes_Contains_spec.
  intros (pre & post & ->). exists (bytes a ++ pre), post.
  now rewrite <- !app_assoc.
Qed.

(** X12.  [gccgo] returns nil exactly when [go1] exits without an error,
    whatever it printed.  When [go1] fails, the error text holds every text
    found in its output or in its exit error, so a signature printed by
    [go1] is a signature of the error. *)
Theorem gccgo_error_keeps_output (data : list byte) :
  (result (gccgo tc data) = Returned None <->
   snd (exec_go1 tc data) = None) /\
  (forall e, snd (exec_go1 tc data) = Some e ->
     exists m, result (gccgo tc data) = Returned (Some m) /\
       forall sig,
         strings_Contains (fst (exec_go1 tc data)) sig = true \/
         strings_Contains e sig = true ->
         strings_Contains m sig = true).
Proof.
  rewrite gccgo_eq. unfold result. cbn [snd].
  destruct (exec_go1 tc data) as [out [e|]]; cbn [fst snd].
  - split; [split; discriminate|].
    intros e' [= <-]. eexists. split; [reflexivity|].
    intros sig [H | H].
    + now apply strings_Contains_app_l.
    + apply strings_Contains_app_r. unfold nl.
      change (String "010" e) with (String "010" "" ++ e)%string.
      now apply strings_Contains_app_r.
  - split; [split; reflexivity | discriminate].
Qed.

End Arms.

(** ** What the patterns accept *)

Section Patterns.

Lemma lang_cat_iff (r1 r2 : regexp) (w : list byte) :
  lang (Cat r1 r2) w <->
  exists w1 w2, w = w1 ++ w2 /\ lang r1 w1 /\ lang r2 w2.
Proof.
  split; [apply lang_cat_inv|].
  intros (w1 & w2 & -> & H1 & H2). now apply lang_cat.
Qed.

Lemma lang_class_iff (p : byte -> bool) (w : list byte) :
  lang (Class p) w <-> exists c, w = [c] /\ p c = true.
Proof.
  split.
  - intros H. inversion H; subst. eauto.
  - intros (c & -> & H). now constructor.
Qed.

Lemma lang_eps_iff (w : list byte) : lang Eps w <-> w = [].
Proof.
  split; [intros H; now inversion H | intros ->; constructor].
Qed.

Lemma lang_lit_iff (l w : list byte) : lang (lit_bytes l) w <-> w = l.
Proof.
  revert w. induction l as [|c l IH]; intros w; cbn [lit_bytes].
  - apply lang_eps_iff.
  - rewrite lang_cat_iff. split.
    + intros (w1 & w2 & -> & H1 & H2). apply IH in H2. subst w2.
      unfold chr in H1. apply lang_class_iff in H1.
      destruct H1 as (c' & -> & E). apply Byte.byte_dec_bl in E. now subst.
    + intros ->. exists [c], l. split; [reflexivity|]. split; [|now apply IH].
      constructor. now apply Byte.byte_dec_lb.
Qed.

Lemma lang_star_class_iff (p : byte -> bool) (w : list byte) :
  lang (Star (Class p)) w <-> forallb p w = true.
Proof.
  split.
  - intros H. remember (Star (Class p)) as r eqn:Er. revert Er.
    induction H as [| | | | | |r' w1 w2 H1 _ H2 IH]; try discriminate.
    + reflexivity.
    + intros Er. injection Er as ->. apply lang_class_iff in H1.
      destruct H1 as (c & -> & Hc). cbn. rewrite Hc. now apply IH.
  - induction w as [|c w IH]; cbn; [intros _; constructor|].
    rewrite Bool.andb_true_iff. intros [Hc Hw].
    apply (@lang_star_cons (Class p) [c] w); [now constructor | now apply IH].
Qed.

Lemma lang_plus_class_iff (p : byte -> bool) (w : list byte) :
  lang (plus (Class p)) w <-> w <> [] /\ forallb p w = true.
Proof.
  unfold plus. rewrite lang_cat_iff. split.
  - intros (w1 & w2 & -> & H1 & H2). apply lang_class_iff in H1.
    destruct H1 as (c & -> & Hc). apply lang_star_class_iff in H2.
    split; [discriminate|]. cbn. now rewrite Hc.
  - intros [Hne H]. destruct w as [|c w]; [contradiction|].
    cbn in H. apply Bool.andb_true_iff in H. destruct H as [Hc Hw].
    exists [c], w. split; [reflexivity|].
    split; [now constructor | now apply lang_star_class_iff].
Qed.

(** A literal pattern is a substring test. *)
Lemma Match_lit (l b : list byte) : Match (lit_bytes l) b = bytes_Contains b l.
Proof.
  apply Bool.eq_iff_eq_true. rewrite Match_spec, bytes_Contains_spec. split.
  - intros (pre & w & post & -> & H). apply lang_lit_iff in H. subst w.
    now exists pre, post.
  - intros (pre & post & ->). exists pre, l, post.
    split; [reflexivity | now apply lang_lit_iff].
Qed.

(** Two literals with a run of one class between them. *)
Lemma Match_lit_star_lit (a b : list byte) (p : byte -> bool)
      (data : list byte) :
  Match (Cat (lit_bytes a) (Cat (Star (Class p)) (lit_bytes b))) data = true
  <->
  exists pre mid post,
    data = pre ++ a ++ mid ++ b ++ post /\ forallb p mid = true.
Proof.
  rewrite Match_spec. split.
  - intros (pre & w & post & -> & H).
    apply lang_cat_iff in H. destruct H as (w1 & w23 & -> & H1 & H).
    apply lang_cat_iff in H. destruct H as (w2 & w3 & -> & H2 & H3).
    apply lang_lit_iff in H1. apply lang_lit_iff in H3.
    apply lang_star_class_iff in H2. subst.
    exists pre, w2, post. split; [|assumption].
    now rewrite <- !app_assoc.
  - intros (pre & mid & post & -> & H).
    exists pre, (a ++ mid ++ b), post. split.
    + now rewrite <- !app_assoc.
    + apply lang_cat; [now apply lang_lit_iff|].
      apply lang_cat; [now apply lang_star_class_iff | now apply lang_lit_iff].
Qed.

(** X13.  [gccgoCrash] is a plain substring test: an error text is of the
    gccgo crash class exactly when it holds a line feed followed by "go1:
    internal compiler error:".  A report on the first line of the text,
    with no line feed before it, is not of the class. *)
Theorem gccgoCrash_is_substring (m : string) :
  MatchString gccgoCrash m =
  strings_Contains m (nl "go1: internal compiler error:").
Proof.
  unfold MatchString, strings_Contains.
  change gccgoCrash
    with (lit_bytes (bytes (nl "go1: internal compiler error:"))).
  apply Match_lit.
Qed.

(** X14.  [issue11531] matches exactly the inputs that hold two commas with
    nothing between them but spaces, tabs, carriage returns and line
    feeds. *)
Theorem issue11531_matches_iff (data : list byte) :
  Match issue11531 data = true <->
  exists pre mid post,
    data = pre ++ bytes "," ++ mid ++ bytes "," ++ post /\
    forallb is_blank mid = true.
Proof.
  change issue11531
    with (Cat (lit_bytes (bytes ","))
              (Cat (Star (Class is_blank)) (lit_bytes (bytes ",")))).
  apply Match_lit_star_lit.
Qed.

(** X15.  [formatBug] (line 292) matches exactly the inputs that hold the
    end of a block comment, white space and a semicolon, or a semicolon,
    white space and the start of a block comment. *)
Theorem formatBug_matches_iff (data : list byte) :
  formatBug data = true <->
  exists pre mid post,
    forallb is_space6 mid = true /\
    (data = pre ++ bytes "*/" ++ mid ++ bytes ";" ++ post \/
     data = pre ++ bytes ";" ++ mid ++ bytes "/*" ++ post).
Proof.
  unfold formatBug. rewrite Bool.orb_true_iff.
  change formatBug1
    with (Cat (lit_bytes (bytes "*/"))
              (Cat (Star (Class is_space6)) (lit_bytes (bytes ";")))).
  change formatBug2
    with (Cat (lit_bytes (bytes ";"))
              (Cat (Star (Class is_space6)) (lit_bytes (bytes "/*")))).
  rewrite !Match_lit_star_lit. split.
  - intros [(pre & mid & post & E & H) | (pre & mid & post & E & H)];
      exists pre, mid, post; auto.
  - intros (pre & mid & post & H & [E | E]); [left | right];
      now exists pre, mid, post.
Qed.

Lemma lang_chr_iff (c : byte) (w : list byte) : lang (chr c) w <-> w = [c].
Proof.
  unfold chr. rewrite lang_class_iff. split.
  - intros (c' & -> & E). apply Byte.byte_dec_bl in E. now subst.
  - intros ->. exists c. split; [reflexivity | now apply Byte.byte_dec_lb].
Qed.

Lemma lang_alt_iff (r1 r2 : regexp) (w : list byte) :
  lang (Alt r1 r2) w <-> lang r1 w \/ lang r2 w.
Proof.
  split; [apply lang_alt_inv|].
  intros [H | H]; [now apply lang_alt_l | now apply lang_alt_r].
Qed.

Lemma lang_opt_lit_iff (l w : list byte) :
  lang (opt (lit_bytes l)) w <-> w = l \/ w = [].
Proof.
  unfold opt. now rewrite lang_alt_iff, lang_lit_iff, lang_eps_iff.
Qed.

(** Matching is a matter of the words alone. *)
Lemma Match_ext (r : regexp) (shape : list byte -> Prop) (b : list byte) :
  (forall w, lang r w <-> shape w) ->
  (Match r b = true <-> exists pre w post, b = pre ++ w ++ post /\ shape w).
Proof.
  intros H. rewrite Match_spec. split; intros (pre & w & post & E & Hw);
    exists pre, w, post; split; try assumption; now apply H.
Qed.

(** X16.  [bigNum] matches exactly the inputs that hold a dot, or a digit,
    an [e] or [E], then an optional minus, an optional plus, and three
    digits. *)
Theorem bigNum_matches_iff (data : list byte) :
  Match bigNum data = true <->
  In "."%byte data \/
  exists pre d x sign d1 d2 d3 post,
    data = pre ++ [d; x] ++ sign ++ [d1; d2; d3] ++ post /\
    is_digit d = true /\
    byte_in (bytes "eE") x = true /\
    (sign = [] \/ sign = bytes "-" \/ sign = bytes "+" \/
     sign = bytes "-+") /\
    is_digit d1 && is_digit d2 && is_digit d3 = true.
Proof.
  split.
  - rewrite Match_spec. intros (pre & w & post & -> & H).
    apply lang_alt_iff in H. destruct H as [H | H].
    + left. apply lang_cat_iff in H. destruct H as (w1 & w2 & -> & H1 & _).
      apply (lang_lit_iff (bytes ".")) in H1. subst w1.
      apply in_or_app. right. now left.
    + right.
      apply lang_cat_iff in H. destruct H as (ds & wa & -> & Hds & H).
      apply lang_cat_iff in H. destruct H as (wx & wb & -> & Hx & H).
      apply lang_cat_iff in H. destruct H as (s1 & wc & -> & Hs1 & H).
      apply lang_cat_iff in H. destruct H as (s2 & wd & -> & Hs2 & H).
      apply lang_cat_iff in H. destruct H as (w1 & we & -> & H1 & H).
      apply lang_cat_iff in H. destruct H as (w2 & wf & -> & H2 & H).
      apply lang_cat_iff in H. destruct H as (w3 & more & -> & H3 & _).
      apply lang_plus_class_iff in Hds. destruct Hds as [Hne Hds].
      apply lang_class_iff in Hx. destruct Hx as (x & -> & Hx).
      apply (lang_opt_lit_iff (bytes "-")) in Hs1.
      apply (lang_opt_lit_iff (bytes "+")) in Hs2.
      apply lang_class_iff in H1. destruct H1 as (d1 & -> & Hd1).
      apply lang_class_iff in H2. destruct H2 as (d2 & -> & Hd2).
      apply lang_class_iff in H3. destruct H3 as (d3 & -> & Hd3).
      destruct (exists_last Hne) as (ds' & d & ->).
      rewrite forallb_app in Hds. apply Bool.andb_true_iff in Hds.
      destruct Hds as [_ Hd]. cbn in Hd. rewrite Bool.andb_true_r in Hd.
      exists (pre ++ ds'), d, x, (s1 ++ s2), d1, d2, d3, (more ++ post).
      split; [cbn; rewrite <- !app_assoc; cbn; now rewrite <- !app_assoc|].
      split; [exact Hd|]. split; [exact Hx|]. split.
      * destruct Hs1 as [-> | ->], Hs2 as [-> | ->]; cbn; auto.
      * unfold is_digit. now rewrite Hd1, Hd2, Hd3.
  - intros [H | (pre & d & x & sign & d1 & d2 & d3 & post & -> & Hd & Hx
                 & Hs & H3)].
    + now apply bigNum_matches_any_dot.
    + apply Bool.andb_true_iff in H3. destruct H3 as [H12 Hd3].
      apply Bool.andb_true_iff in H12. destruct H12 as [Hd1 Hd2].
      apply Match_spec. exists pre, ([d; x] ++ sign ++ [d1; d2; d3]), post.
      split; [now rewrite <- !app_assoc|].
      apply lang_alt_r.
      assert (Hsign : exists s1 s2, sign = s1 ++ s2 /\
                        (s1 = bytes "-" \/ s1 = []) /\
                        (s2 = bytes "+" \/ s2 = [])).
      { destruct Hs as [-> | [-> | [-> | ->]]].
        - exists [], []; auto.
        - exists (bytes "-"), []; auto.
        - exists [], (bytes "+"); auto.
        - exists (bytes "-"), (bytes "+"); auto. }
      destruct Hsign as (s1 & s2 & -> & Hs1 & Hs2).
      apply (@lang_cat (plus digit) _ [d] ([x] ++ (s1 ++ s2) ++ [d1; d2; d3])).
      { apply lang_plus_class_iff. split; [discriminate|].
        cbn. now rewrite Bool.andb_true_r. }
      apply (@lang_cat (set (bytes "eE")) _ [x] ((s1 ++ s2) ++ [d1; d2; d3])).
      { now constructor. }
      rewrite <- app_assoc.
      apply lang_cat; [now apply (lang_opt_lit_iff (bytes "-"))|].
      apply lang_cat; [now apply (lang_opt_lit_iff (bytes "+"))|].
      apply (@lang_cat digit _ [d1] [d2; d3]); [now constructor|].
      apply (@lang_cat digit _ [d2] [d3]); [now constructor|].
      apply (@lang_cat digit _ [d3] []); [now constructor|].
      apply lang_star_nil.
Qed.

(** X17.  The sanitizer crash class: a line feed, "==", digits and
    "==ERROR: AddressSanitizer: ". *)
Theorem asanCrash_matches_iff (m : string) :
  MatchString asanCrash m = true <->
  exists pre ds post,
    bytes m = pre ++ bytes (nl "==") ++ ds ++
              bytes "==ERROR: AddressSanitizer: " ++ post /\
    ds <> [] /\ forallb is_digit ds = true.
Proof.
  unfold MatchString. rewrite Match_spec. split.
  - intros (pre & w & post & -> & H).
    apply lang_cat_iff in H. destruct H as (w1 & wa & -> & H1 & H).
    apply lang_cat_iff in H. destruct H as (w2 & wb & -> & H2 & H).
    apply lang_cat_iff in H. destruct H as (ds & w4 & -> & Hds & H4).
    apply (lang_chr_iff LF) in H1.
    apply (lang_lit_iff (bytes "==")) in H2.
    apply (lang_lit_iff (bytes "==ERROR: AddressSanitizer: ")) in H4.
    apply lang_plus_class_iff in Hds. destruct Hds as [Hne Hds]. subst.
    exists pre, ds, post. split; [|now split].
    now rewrite <- !app_assoc.
  - intros (pre & ds & post & -> & Hne & Hds).
    exists pre,
      ([LF] ++ bytes "==" ++ ds ++ bytes "==ERROR: AddressSanitizer: "),
      post.
    split; [now rewrite <- !app_assoc|].
    apply lang_cat; [now apply (lang_chr_iff LF)|].
    apply lang_cat; [now apply (lang_lit_iff (bytes "=="))|].
    apply lang_cat; [now apply lang_plus_class_iff|].
    now apply (lang_lit_iff (bytes "==ERROR: AddressSanitizer: ")).
Qed.

(** X18.  The gc crash class: a line feed, the path "/tmp/fuzz.gc" with
    digits, a colon, a line number and ": internal compiler error: ". *)
Theorem gcCrash_matches_iff (m : string) :
  MatchString gcCrash m = true <->
  exists pre ds1 ds2 post,
    bytes m = pre ++ bytes (nl "/tmp/fuzz.gc") ++ ds1 ++ bytes ":" ++ ds2 ++
              bytes ": internal compiler error: " ++ post /\
    ds1 <> [] /\ forallb is_digit ds1 = true /\
    ds2 <> [] /\ forallb is_digit ds2 = true.
Proof.
  unfold MatchString. rewrite Match_spec. split.
  - intros (pre & w & post & -> & H).
    apply lang_cat_iff in H. destruct H as (w1 & wa & -> & H1 & H).
    apply lang_cat_iff in H. destruct H as (w2 & wb & -> & H2 & H).
    apply lang_cat_iff in H. destruct H as (ds1 & wc & -> & Hds1 & H).
    apply lang_cat_iff in H. destruct H as (w4 & wd & -> & H4 & H).
    apply lang_cat_iff in H. destruct H as (ds2 & w6 & -> & Hds2 & H6).
    apply (lang_chr_iff LF) in H1.
    apply (lang_lit_iff (bytes "/tmp/fuzz.gc")) in H2.
    apply (lang_lit_iff (bytes ":")) in H4.
    apply (lang_lit_iff (bytes ": internal compiler error: ")) in H6.
    apply lang_plus_class_iff in Hds1. destruct Hds1 as [Hne1 Hds1].
    apply lang_plus_class_iff in Hds2. destruct Hds2 as [Hne2 Hds2]. subst.
    exists pre, ds1, ds2, post. split; [|now repeat split].
    now rewrite <- !app_assoc.
  - intros (pre & ds1 & ds2 & post & -> & Hne1 & Hds1 & Hne2 & Hds2).
    exists pre,
      ([LF] ++ bytes "/tmp/fuzz.gc" ++ ds1 ++ bytes ":" ++ ds2 ++
       bytes ": internal compiler error: "),
      post.
    split; [now rewrite <- !app_assoc|].
    apply lang_cat; [now apply (lang_chr_iff LF)|].
    apply lang_cat; [now apply (lang_lit_iff (bytes "/tmp/fuzz.gc"))|].
    apply lang_cat; [now apply lang_plus_class_iff|].
    apply lang_cat; [now apply (lang_lit_iff (bytes ":"))|].
    apply lang_cat; [now apply lang_plus_class_iff|].
    now apply (lang_lit_iff (bytes ": internal compiler error: ")).
Qed.

(** X19.  [fpRounding] matches exactly the texts that hold " (untyped
    float constant " and, further on the same line, ") truncated to ". *)
Theorem fpRounding_matches_iff (m : string) :
  MatchString fpRounding m = true <->
  exists pre mid post,
    bytes m = pre ++ bytes " (untyped float constant " ++ mid ++
              bytes ") truncated to " ++ post /\
    forallb not_LF mid = true.
Proof.
  unfold MatchString.
  change fpRounding
    with (Cat (lit_bytes (bytes " (untyped float constant "))
              (Cat (Star (Class not_LF))
                   (lit_bytes (bytes ") truncated to ")))).
  apply Match_lit_star_lit.
Qed.

(** X20.  [issue11533] matches exactly the inputs that hold one of the
    bytes space, CR, tab, LF, [=+-*^/(,], then a zero, one or more digits,
    and [i], [e] or [E]. *)
Theorem issue11533_matches_iff (data : list byte) :
  Match issue11533 data = true <->
  exists pre c ds x post,
    data = pre ++ [c] ++ bytes "0" ++ ds ++ [x] ++ post /\
    byte_in ([SP; CR; TAB; LF] ++ bytes "=+-*^/(,") c = true /\
    ds <> [] /\ forallb is_digit ds = true /\
    byte_in (bytes "ieE") x = true.
Proof.
  rewrite Match_spec. split.
  - intros (pre & w & post & -> & H).
    apply lang_cat_iff in H. destruct H as (w1 & wa & -> & H1 & H).
    apply lang_cat_iff in H. destruct H as (w2 & wb & -> & H2 & H).
    apply lang_cat_iff in H. destruct H as (ds & w4 & -> & Hds & H4).
    apply lang_class_iff in H1. destruct H1 as (c & -> & Hc).
    apply (lang_lit_iff (bytes "0")) in H2.
    apply lang_plus_class_iff in Hds. destruct Hds as [Hne Hds].
    apply lang_class_iff in H4. destruct H4 as (x & -> & Hx). subst.
    exists pre, c, ds, x, post. split; [|now repeat split].
    now rewrite <- !app_assoc.
  - intros (pre & c & ds & x & post & -> & Hc & Hne & Hds & Hx).
    exists pre, ([c] ++ bytes "0" ++ ds ++ [x]), post.
    split; [now rewrite <- !app_assoc|].
    apply lang_cat; [now constructor|].
    apply lang_cat; [now apply (lang_lit_iff (bytes "0"))|].
    apply lang_cat; [now apply lang_plus_class_iff | now constructor].
Qed.

Lemma not_LF_forallb (w : list byte) :
  forallb not_LF w = true <-> ~ In LF w.
Proof.
  unfold not_LF. induction w as [|c w IH]; cbn; [tauto|].
  rewrite Bool.andb_true_iff, IH, Bool.negb_true_iff. split.
  - intros [Hc Hw] [E | Hin]; [|tauto]. subst c. discriminate Hc.
  - intros H. split; [|tauto].
    destruct (Byte.eqb c LF) eqn:E; [|reflexivity].
    apply Byte.byte_dec_bl in E. subst c. tauto.
Qed.

(** A line: bytes without a line feed, and a line feed. *)
Lemma lang_line_iff (w : list byte) :
  lang (Cat (Star dot) (chr LF)) w <->
  exists u, w = u ++ [LF] /\ forallb not_LF u = true.
Proof.
  rewrite lang_cat_iff. split.
  - intros (u & v & -> & Hu & Hv). apply lang_star_class_iff in Hu.
    apply (lang_chr_iff LF) in Hv. subst v. now exists u.
  - intros (u & -> & Hu). exists u, [LF]. split; [reflexivity|].
    split; [now apply lang_star_class_iff | now apply (lang_chr_iff LF)].
Qed.

Lemma lang_plus_star (r : regexp) (w : list byte) :
  lang (plus r) w -> lang (Star r) w.
Proof.
  unfold plus. rewrite lang_cat_iff. intros (w1 & w2 & -> & H1 & H2).
  now apply lang_star_cons.
Qed.

(** Whatever ends with a line feed is one or more lines. *)
Lemma lang_lines (u a : list byte) :
  forallb not_LF a = true ->
  lang (plus (Cat (Star dot) (chr LF))) (a ++ u ++ [LF]).
Proof.
  revert a. induction u as [|c u IH]; intros a Ha.
  - cbn. rewrite <- (app_nil_r (a ++ [LF])).
    apply lang_cat; [|apply lang_star_nil]. apply lang_line_iff. now exists a.
  - destruct (Byte.eqb c LF) eqn:E.
    + apply Byte.byte_dec_bl in E. subst c.
      change (a ++ (LF :: u) ++ [LF]) with (a ++ [LF] ++ (u ++ [LF])).
      rewrite app_assoc. apply lang_cat.
      * apply lang_line_iff. now exists a.
      * apply lang_plus_star. now apply (IH []).
    + change (a ++ (c :: u) ++ [LF]) with (a ++ [c] ++ (u ++ [LF])).
      rewrite app_assoc. apply IH.
      rewrite forallb_app, Ha. cbn. unfold not_LF. now rewrite E.
Qed.

(** The last line feed of a word. *)
Lemma last_LF (w : list byte) :
  In LF w -> exists u v, w = u ++ LF :: v /\ forallb not_LF v = true.
Proof.
  induction w as [|c w IH]; [intros []|]. intros Hin.
  destruct (forallb not_LF w) eqn:Hw.
  - destruct Hin as [-> | Hin].
    + now exists [], w.
    + apply not_LF_forallb in Hw. contradiction.
  - assert (Hw' : In LF w).
    { destruct (in_dec Byte.byte_eq_dec LF w) as [H | H]; [exact H|].
      apply not_LF_forallb in H. congruence. }
    destruct (IH Hw') as (u & v & -> & Hv). now exists (c :: u), v.
Qed.

(** X21.  [issue11528] matches exactly the inputs that hold the start of a
    block comment and, after it, the end of one, with a line feed
    somewhere between the two. *)
Theorem issue11528_matches_iff (data : list byte) :
  Match issue11528 data = true <->
  exists pre body post,
    data = pre ++ bytes "/*" ++ body ++ bytes "*/" ++ post /\ In LF body.
Proof.
  rewrite Match_spec. split.
  - intros (pre & w & post & -> & H).
    apply lang_cat_iff in H. destruct H as (w1 & wa & -> & H1 & H).
    apply lang_cat_iff in H. destruct H as (w2 & wb & -> & H2 & H).
    apply lang_cat_iff in H. destruct H as (w3 & w4 & -> & H3 & H4).
    apply (lang_lit_iff (bytes "/*")) in H1.
    apply (lang_lit_iff (bytes "*/")) in H4. subst.
    exists pre, (w2 ++ w3), post. split; [now rewrite <- !app_assoc|].
    unfold plus in H2. apply lang_cat_iff in H2.
    destruct H2 as (l & ls & -> & Hl & _). apply lang_line_iff in Hl.
    destruct Hl as (u & -> & _).
    apply in_or_app. left. apply in_or_app. left. apply in_or_app. right.
    now left.
  - intros (pre & body & post & -> & Hin).
    apply last_LF in Hin. destruct Hin as (u & v & -> & Hv).
    exists pre, (bytes "/*" ++ (u ++ [LF]) ++ v ++ bytes "*/"), post.
    split.
    + rewrite <- !app_assoc. reflexivity.
    + apply lang_cat; [now apply (lang_lit_iff (bytes "/*"))|].
      apply lang_cat.
      * rewrite <- (app_nil_l (u ++ [LF])). now apply lang_lines.
      * apply lang_cat; [now apply lang_star_class_iff|].
        now apply (lang_lit_iff (bytes "*/")).
Qed.

End Patterns.

(** ** The carriage returns and the gc arm *)

(** X22.  Line 296 keeps the length of the input and leaves an input alone
    exactly when it holds no carriage return; doing it twice is doing it
    once. *)
Theorem unCR_changes_only_CR (data : list byte) :
  List.length (unCR data) = List.length data /\
  (unCR data = data <-> ~ In CR data) /\
  unCR (unCR data) = unCR data.
Proof.
  rewrite !unCR_map. split; [apply length_map|]. split.
  - induction data as [|c data IH]; cbn; [tauto|].
    destruct (Byte.eqb c CR) eqn:E.
    + apply Byte.byte_dec_bl in E. subst c. split; [discriminate | tauto].
    + split.
      * intros [= H] [Hc | Hin]; [subst c; discriminate E | tauto].
      * intros H. f_equal. tauto.
  - rewrite map_map. apply map_ext. intros c.
    destruct (Byte.eqb c CR) eqn:E; [reflexivity | now rewrite E].
Qed.

Section GcArm.

Variable w : gc_world.

(** [gc], path by path. *)
Lemma gc_eq (data : list byte) :
  gc w data =
  let f := fst (ioutil_TempFile w) in
  match snd (ioutil_TempFile w) with
  | Some e => ([TempFile "" "fuzz.gc"], Returned (Some e))
  | None =>
      match file_Write w f data with
      | Some e =>
          ([TempFile "" "fuzz.gc"; FileWrite f data; FileClose f; Remove f],
           Returned (Some e))
      | None =>
          ([TempFile "" "fuzz.gc"; FileWrite f data; FileClose f;
            Run "compile" [f]; FileClose f; Remove f],
           Returned match exec_compile w f with
                    | (out, Some e) => Some (out ++ nl e)%string
                    | (_, None) => None
                    end)
      end
  end.
Proof.
  unfold gc. destruct (ioutil_TempFile w) as [f [e|]]; cbn; [reflexivity|].
  destruct (file_Write w f data) as [e|]; cbn; [reflexivity|].
  destruct (exec_compile w f) as [out [e|]]; reflexivity.
Qed.

(** X23.  [gc] cleans up on every path.  When no temporary file could be
    made, nothing else is done.  When one was made, the run ends by closing
    it and removing it, it is removed once, and nothing is done to any
    other file. *)
Theorem gc_removes_its_file (data : list byte) :
  (snd (ioutil_TempFile w) <> None ->
   trace_of_gc (gc w data) = [TempFile "" "fuzz.gc"]) /\
  (snd (ioutil_TempFile w) = None ->
   exists mid,
     trace_of_gc (gc w data) =
     TempFile "" "fuzz.gc" :: mid ++
       [FileClose (fst (ioutil_TempFile w));
        Remove (fst (ioutil_TempFile w))] /\
     (forall name, ~ In (Remove name) mid) /\
     (forall name, In (FileClose name) mid \/
                   (exists d, In (FileWrite name d) mid) ->
                   name = fst (ioutil_TempFile w))).
Proof.
  rewrite gc_eq. unfold trace_of_gc. cbn zeta.
  destruct (ioutil_TempFile w) as [f [e|]]; cbn [fst snd].
  { split; [reflexivity | discriminate]. }
  split; [congruence|]. intros _.
  destruct (file_Write w f data) as [e|]; cbn [fst].
  - exists [FileWrite f data]. split; [reflexivity|]. split.
    + intros name [H | []]. discriminate H.
    + intros name [[H | []] | (d & [H | []])]; congruence.
  - exists [FileWrite f data; FileClose f; Run "compile" [f]].
    split; [reflexivity|]. split.
    + intros name [H | [H | [H | []]]]; discriminate H.
    + intros name [[H | [H | [H | []]]] | (d & [H | [H | [H | []]]])];
        congruence.
Qed.

(** X24.  [gc] runs only [compile], only on its own file, and only after
    the input was written to the file and the file closed. *)
Theorem gc_compiles_a_closed_file
        (data : list byte) (prog : string) (args : list string) :
  In (Run prog args) (trace_of_gc (gc w data)) ->
  prog = "compile" /\ args = [fst (ioutil_TempFile w)] /\
  snd (ioutil_TempFile w) = None /\
  file_Write w (fst (ioutil_TempFile w)) data = None /\
  exists rest,
    trace_of_gc (gc w data) =
    [TempFile "" "fuzz.gc"; FileWrite (fst (ioutil_TempFile w)) data;
     FileClose (fst (ioutil_TempFile w));
     Run "compile" [fst (ioutil_TempFile w)]] ++ rest.
Proof.
  rewrite gc_eq. unfold trace_of_gc. cbn zeta.
  destruct (ioutil_TempFile w) as [f [e|]]; cbn [fst snd].
  { intros [H | []]. discriminate H. }
  destruct (file_Write w f data) as [e|]; cbn [fst].
  { intros [H | [H | [H | [H | []]]]]; discriminate H. }
  intros [H | [H | [H | [H | [H | [H | []]]]]]]; try discriminate H.
  injection H as <- <-. repeat split. eexists. reflexivity.
Qed.

(** X25.  [gc] never panics, and it returns nil exactly when the temporary
    file was made, the input was written to it and [compile] exited without
    an error. *)
Theorem gc_accepts_iff (data : list byte) :
  panicked (snd (gc w data)) = false /\
  (snd (gc w data) = Returned None <->
   snd (ioutil_TempFile w) = None /\
   file_Write w (fst (ioutil_TempFile w)) data = None /\
   snd (exec_compile w (fst (ioutil_TempFile w))) = None).
Proof.
  rewrite gc_eq. cbn zeta.
  destruct (ioutil_TempFile w) as [f [e|]]; cbn [fst snd].
  { split; [reflexivity|]. split; [discriminate | intros [H _]; discriminate H]. }
  destruct (file_Write w f data) as [e|]; cbn [fst snd].
  { split; [reflexivity|].
    split; [discriminate | intros (_ & H & _); discriminate H]. }
  destruct (exec_compile w f) as [out [e|]]; cbn [fst snd].
  - split; [reflexivity|].
    split; [discriminate | intros (_ & _ & H); discriminate H].
  - split; [reflexivity|]. split; [now repeat split | reflexivity].
Qed.

End GcArm.

(** ** More runs *)

(** X1 at a source every arm accepts. *)
Lemma Fuzz_returns_0_or_1_witness :
  result (Fuzz tc_valid src_p) = Returned 1%Z /\ (1 = 0 \/ 1 = 1)%Z.
Proof.
  assert (H : result (Fuzz tc_valid src_p) = Returned 1%Z) by run.
  exact (conj H (@Fuzz_returns_0_or_1 tc_valid src_p 1%Z H)).
Defined.

(** X2 at the same source. *)
Lemma Fuzz_pass_needs_agreement_witness :
  result (Fuzz tc_valid src_p) = Returned 1%Z /\
  prefilter src_p = false /\
  result (gotypes tc_valid src_p) = Returned None /\
  result (gccgo tc_valid src_p) = Returned None /\
  (formatBug src_p = true \/
   snd (format_Source tc_valid (unCR src_p)) = None).
Proof.
  assert (H : result (Fuzz tc_valid src_p) = Returned 1%Z) by run.
  exact (conj H (@Fuzz_pass_needs_agreement tc_valid src_p H)).
Defined.

(** X4 at a crash nobody filed. *)
Lemma Fuzz_panic_causes_witness :
  result (Fuzz tc_new_crash src_p) = Panicked "gccgo compiler crashed" /\
  (result (gotypes tc_new_crash src_p) = Panicked "gccgo compiler crashed" \/
   exists goErr gccgoErr,
     result (gotypes tc_new_crash src_p) = Returned goErr /\
     result (gccgo tc_new_crash src_p) = Returned gccgoErr /\
     (("gccgo compiler crashed" = "gc compiler crashed" /\
       gc_crashed goErr = true /\ gc_known (Error goErr) = false) \/
      ("gccgo compiler crashed" = "gccgo compiler crashed" /\
       ((gccgo_crashed gccgoErr = true /\
         gccgo_known (Error gccgoErr) = false) \/
        (asan_crashed gccgoErr = true /\
         asan_known (Error gccgoErr) = false))) \/
      ("gccgo compiler crashed" = "gc, gccgo and go/types disagree" /\
       isNil goErr <> isNil gccgoErr) \/
      (goErr = None /\ gccgoErr = None /\
       snd (format_Source tc_new_crash (unCR src_p)) =
         Some "gccgo compiler crashed"))).
Proof.
  assert (H : result (Fuzz tc_new_crash src_p) =
              Panicked "gccgo compiler crashed") by run.
  exact (conj H (@Fuzz_panic_causes tc_new_crash src_p _ H)).
Defined.

(** X6 at a source with a qualified name. *)
Lemma Fuzz_skips_any_dot_witness :
  In "."%byte src_dot /\ Fuzz tc_valid src_dot = ([], Returned 0%Z).
Proof.
  assert (H : In "."%byte src_dot).
  { vm_compute. do 21 right. left. reflexivity. }
  exact (conj H (@Fuzz_skips_any_dot tc_valid src_dot H)).
Defined.

(** X7 at the filed overflow message. *)
Lemma known_divergence_needs_disagreement_witness :
  known_divergence src_p None None (go1_error out_overflow) = true /\
  disagree None None (go1_error out_overflow) = true.
Proof.
  assert (H : known_divergence src_p None None (go1_error out_overflow)
              = true) by run.
  exact (conj H (@known_divergence_needs_disagreement src_p None None
                   (go1_error out_overflow) H)).
Defined.

(** X8 at a source the checker rejects. *)
Lemma gotypes_error_origin_witness :
  result (gotypes tc_both_reject src_p) =
    Returned (Some "src.go:1:20: undeclared name: x") /\
  ((snd (parser_ParseFile tc_both_reject src_p) =
      Some "src.go:1:20: undeclared name: x" /\
    trace (gotypes tc_both_reject src_p) = [ParseFile src_p]) \/
   (snd (parser_ParseFile tc_both_reject src_p) = None /\
    types_Check tc_both_reject (fst (parser_ParseFile tc_both_reject src_p))
      = Some "src.go:1:20: undeclared name: x" /\
    trace (gotypes tc_both_reject src_p) = [ParseFile src_p; TypesCheck])).
Proof.
  exact (conj eq_refl (@gotypes_error_origin tc_both_reject src_p _ eq_refl)).
Defined.

(** X10 with three packages, the second of which cannot be written. *)
Lemma gotypes_panics_at_first_failure_witness :
  writes_ok tc_ssa_fails [0] /\
  gotypes tc_ssa_fails src_p =
  ([ParseFile src_p; TypesCheck; BuildAll; WriteTo; WriteTo],
   Panicked "short write").
Proof.
  assert (H : writes_ok tc_ssa_fails [0]) by (repeat constructor).
  exact (conj H (@gotypes_panics_at_first_failure tc_ssa_fails src_p
                   [0] [2] 1 "short write" eq_refl eq_refl eq_refl H eq_refl)).
Defined.


(** X24 in a world without errors. *)
Lemma gc_compiles_a_closed_file_witness :
  In (Run "compile" ["/tmp/fuzz.gc042"])
     (trace_of_gc (gc gc_world_ok src_p)) /\
  file_Write gc_world_ok (fst (ioutil_TempFile gc_world_ok)) src_p = None.
Proof.
  assert (H : In (Run "compile" ["/tmp/fuzz.gc042"])
                 (trace_of_gc (gc gc_world_ok src_p))).
  { vm_compute. do 3 right. left. reflexivity. }
  exact (conj H (proj1 (proj2 (proj2 (proj2
           (@gc_compiles_a_closed_file gc_world_ok src_p _ _ H)))))).
Defined.
